(** * ClientManager: the reconciliation protocol

    A shallow embedding of the server store ([server/database.py]), the JSON
    API ([server/main.py]) and the agent ([client/service/db.py],
    [installer.py], [main.py]), with the properties of the job life cycle,
    the plan compiler, the idempotency gate and the execution pipeline.

    SQLite tables are lists of rows in rowid order, [AUTOINCREMENT] is the
    [sqlite_sequence] counter kept next to each table, [NULL] is [None].
    Clock readings and random tokens are inputs of the operations that
    read them.  Strings are sequences of 8-bit characters. *)

From Stdlib Require Import ZArith List String Ascii Bool Lia DecimalString.
Import ListNotations.

Local Open Scope string_scope.
Local Open Scope list_scope.
Local Open Scope Z_scope.

(** ** Python values *)

(** Truth value of a [str]: the empty string is falsy. *)
Definition truthy (s : string) : bool := negb (String.eqb s "").

(** [x or d] for an [Optional[str]]: [None] and [""] both give [d]. *)
Definition or_str (x : option string) (d : string) : string :=
  match x with
  | Some s => if truthy s then s else d
  | None => d
  end.

(** [x or [0]] and the like for a list. *)
Definition or_list {A : Type} (l d : list A) : list A :=
  match l with
  | [] => d
  | _ :: _ => l
  end.

(** [str.isspace] on the ASCII range: TAB..CR, FS..US and the space. *)
Definition is_space (c : ascii) : bool :=
  let n := nat_of_ascii c in
  ((9 <=? n)%nat && (n <=? 13)%nat) || ((28 <=? n)%nat && (n <=? 32)%nat).

Fixpoint lstrip (s : string) : string :=
  match s with
  | String c r => if is_space c then lstrip r else s
  | EmptyString => EmptyString
  end.

Fixpoint rstrip (s : string) : string :=
  match s with
  | String c r =>
      let r' := rstrip r in
      if is_space c && String.eqb r' "" then EmptyString else String c r'
  | EmptyString => EmptyString
  end.

(** [s.strip()] *)
Definition strip (s : string) : string := rstrip (lstrip s).

Definition lower_char (c : ascii) : ascii :=
  let n := nat_of_ascii c in
  if ((65 <=? n)%nat && (n <=? 90)%nat)%bool then ascii_of_nat (n + 32) else c.

(** [s.lower()] on the ASCII range. *)
Fixpoint lower (s : string) : string :=
  match s with
  | String c r => String (lower_char c) (lower r)
  | EmptyString => EmptyString
  end.

(** [s[-n:]] for a positive [n]: the last [n] characters. *)
Definition tail_chars (n : nat) (s : string) : string :=
  substring (String.length s - n) n s.

(** [str(n)] for an [int]. *)
Definition str_of_Z (n : Z) : string := NilZero.string_of_int (Z.to_int n).

Definition opt_str_eqb (x y : option string) : bool :=
  match x, y with
  | Some a, Some b => String.eqb a b
  | None, None => true
  | _, _ => false
  end.



(** Outcome of a call that can raise: the value, or the text of the
    exception. *)
Inductive result (A : Type) : Type :=
| Ok (a : A)
| Raise (e : string).
Arguments Ok {A} a.
Arguments Raise {A} e.

(** ** shared/models.py *)

Module Models.

Record PackageSpec := {
  id : Z;
  name : string;
  version : string;
  platform : string;
  download_url : string;
  sha256 : string;
  install_cmd : string;
  uninstall_cmd : string;
  silent_args : string;
  precheck_cmd : string;
  postcheck_cmd : string;
  expected_exit_codes : list Z
}.

Record PlanAssignment := {
  job_id : option Z;
  action : string;
  package : PackageSpec
}.

Record JobEvent := {
  phase : string;
  status : option string;
  rc : option Z;
  stdout_tail : option string;
  stderr_tail : option string
}.

End Models.

(** ** server/database.py *)

Module Server.
Import Models.

Record Computer := {
  c_id : Z;
  c_hostname : string;
  c_os : option string;
  c_arch : option string;
  c_tags : option string;
  c_last_check_in : option string;
  c_client_version : option string;
  c_token : option string;
  c_token_revoked : Z
}.

(** The [expected_exit_codes] column holds the JSON text of a list of
    integers; it is kept decoded, [json.loads (json.dumps l) = l]. *)
Record Package := {
  p_id : Z;
  p_name : string;
  p_version : string;
  p_platform : string;
  p_download_url : option string;
  p_sha256 : option string;
  p_install_cmd : option string;
  p_uninstall_cmd : option string;
  p_silent_args : option string;
  p_precheck_cmd : option string;
  p_postcheck_cmd : option string;
  p_expected_exit_codes : list Z
}.

Record Assignment := {
  a_id : Z;
  a_computer_id : Z;
  a_package_id : Z;
  a_desired_state : string;
  a_created_at : option string;
  a_updated_at : option string
}.

Record Job := {
  j_id : Z;
  j_computer_id : Z;
  j_package_id : Z;
  j_action : string;
  j_status : string;
  j_started_at : option string;
  j_finished_at : option string;
  j_rc : option Z;
  j_stdout_tail : option string;
  j_stderr_tail : option string;
  j_attempts : Z
}.

Record Database := {
  computers : list Computer;
  seq_computers : Z;
  packages : list Package;
  seq_packages : Z;
  assignments : list Assignment;
  seq_assignments : Z;
  jobs : list Job;
  seq_jobs : Z
}.

(** The store right after [_create_tables] on a new file. *)
Definition empty_db : Database :=
  {| computers := []; seq_computers := 0;
     packages := []; seq_packages := 0;
     assignments := []; seq_assignments := 0;
     jobs := []; seq_jobs := 0 |}.

Definition set_computers (db : Database) (cs : list Computer) (n : Z) : Database :=
  {| computers := cs; seq_computers := n;
     packages := packages db; seq_packages := seq_packages db;
     assignments := assignments db; seq_assignments := seq_assignments db;
     jobs := jobs db; seq_jobs := seq_jobs db |}.

Definition set_packages (db : Database) (ps : list Package) (n : Z) : Database :=
  {| computers := computers db; seq_computers := seq_computers db;
     packages := ps; seq_packages := n;
     assignments := assignments db; seq_assignments := seq_assignments db;
     jobs := jobs db; seq_jobs := seq_jobs db |}.

Definition set_assignments (db : Database) (l : list Assignment) (n : Z) : Database :=
  {| computers := computers db; seq_computers := seq_computers db;
     packages := packages db; seq_packages := seq_packages db;
     assignments := l; seq_assignments := n;
     jobs := jobs db; seq_jobs := seq_jobs db |}.

Definition set_jobs (db : Database) (js : list Job) (n : Z) : Database :=
  {| computers := computers db; seq_computers := seq_computers db;
     packages := packages db; seq_packages := seq_packages db;
     assignments := assignments db; seq_assignments := seq_assignments db;
     jobs := js; seq_jobs := n |}.

(** *** Computers *)

Definition get_computer (db : Database) (cid : Z) : option Computer :=
  find (fun c => c_id c =? cid) (computers db).

Definition get_computer_by_hostname (db : Database) (hostname : string)
  : option Computer :=
  find (fun c => String.eqb (c_hostname c) hostname) (computers db).

(** [INSERT INTO computers]; the [UNIQUE] hostname makes a second row of
    the same name an [IntegrityError]. *)
Definition create_computer (db : Database) (hostname os_name arch : string)
    (tags_json : string) : result Z * Database :=
  match get_computer_by_hostname db hostname with
  | Some _ => (Raise "UNIQUE constraint failed: computers.hostname", db)
  | None =>
      let cid := seq_computers db + 1 in
      let row := {| c_id := cid; c_hostname := hostname;
                    c_os := Some os_name; c_arch := Some arch;
                    c_tags := Some tags_json; c_last_check_in := None;
                    c_client_version := None; c_token := None;
                    c_token_revoked := 0 |} in
      (Ok cid, set_computers db (computers db ++ [row]) cid)
  end.

(** [COALESCE(?, old)] *)
Definition coalesce (x old : option string) : option string :=
  match x with
  | Some _ => x
  | None => old
  end.

Definition with_token_and_meta (token os_name arch : string)
    (client_version : option string) (c : Computer) : Computer :=
  {| c_id := c_id c; c_hostname := c_hostname c;
     c_os := coalesce (Some os_name) (c_os c);
     c_arch := coalesce (Some arch) (c_arch c);
     c_tags := c_tags c; c_last_check_in := c_last_check_in c;
     c_client_version := coalesce client_version (c_client_version c);
     c_token := Some token; c_token_revoked := c_token_revoked c |}.

(** Some row other than [cid] already holds [token]: the [UNIQUE] token
    column refuses the update. *)
Definition token_taken (db : Database) (cid : Z) (token : string) : bool :=
  existsb (fun c => negb (c_id c =? cid) && opt_str_eqb (c_token c) (Some token))
          (computers db).

Definition set_token_and_meta (db : Database) (cid : Z) (token os_name arch : string)
    (client_version : option string) : result unit * Database :=
  if existsb (fun c => c_id c =? cid) (computers db) && token_taken db cid token
  then (Raise "UNIQUE constraint failed: computers.token", db)
  else
    (Ok tt,
     set_computers db
       (map (fun c => if c_id c =? cid
                      then with_token_and_meta token os_name arch client_version c
                      else c)
            (computers db))
       (seq_computers db)).

Definition with_last_check_in (now : string) (c : Computer) : Computer :=
  {| c_id := c_id c; c_hostname := c_hostname c; c_os := c_os c;
     c_arch := c_arch c; c_tags := c_tags c; c_last_check_in := Some now;
     c_client_version := c_client_version c; c_token := c_token c;
     c_token_revoked := c_token_revoked c |}.

Definition update_last_check_in (db : Database) (cid : Z) (now : string) : Database :=
  set_computers db
    (map (fun c => if c_id c =? cid then with_last_check_in now c else c)
         (computers db))
    (seq_computers db).

(** *** Packages *)

Definition create_package (db : Database)
    (name version platform download_url sha256 install_cmd uninstall_cmd
     silent_args precheck_cmd postcheck_cmd : string)
    (expected_exit_codes : list Z) : Z * Database :=
  let pid := seq_packages db + 1 in
  let row := {| p_id := pid; p_name := name; p_version := version;
                p_platform := platform;
                p_download_url := Some download_url; p_sha256 := Some sha256;
                p_install_cmd := Some install_cmd;
                p_uninstall_cmd := Some uninstall_cmd;
                p_silent_args := Some silent_args;
                p_precheck_cmd := Some precheck_cmd;
                p_postcheck_cmd := Some postcheck_cmd;
                p_expected_exit_codes := expected_exit_codes |} in
  (pid, set_packages db (packages db ++ [row]) pid).

(** *** Jobs *)

(** [desired_state in ("install", "uninstall")] *)
Definition actionable (s : string) : bool :=
  String.eqb s "install" || String.eqb s "uninstall".

(** [status IN ('Pending','InProgress')] *)
Definition non_terminal (s : string) : bool :=
  String.eqb s "Pending" || String.eqb s "InProgress".

Definition terminal (s : string) : bool :=
  String.eqb s "Succeeded" || String.eqb s "Failed".

Definition schedule_job (db : Database) (computer_id package_id : Z)
    (action : string) : Z * Database :=
  let jid := seq_jobs db + 1 in
  let row := {| j_id := jid; j_computer_id := computer_id;
                j_package_id := package_id; j_action := action;
                j_status := "Pending"; j_started_at := None;
                j_finished_at := None; j_rc := None; j_stdout_tail := None;
                j_stderr_tail := None; j_attempts := 0 |} in
  (jid, set_jobs db (jobs db ++ [row]) jid).

Definition get_job (db : Database) (job_id : Z) : option Job :=
  find (fun j => j_id j =? job_id) (jobs db).

(** The row written by the [start] update. *)
Definition job_started (now : string) (j : Job) : Job :=
  {| j_id := j_id j; j_computer_id := j_computer_id j;
     j_package_id := j_package_id j; j_action := j_action j;
     j_status := "InProgress"; j_started_at := Some now;
     j_finished_at := j_finished_at j; j_rc := j_rc j;
     j_stdout_tail := j_stdout_tail j; j_stderr_tail := j_stderr_tail j;
     j_attempts := j_attempts j + 1 |}.

(** The row written by the [completed] update. *)
Definition job_completed (final_status now : string) (rc : option Z)
    (stdout_tail stderr_tail : option string) (j : Job) : Job :=
  {| j_id := j_id j; j_computer_id := j_computer_id j;
     j_package_id := j_package_id j; j_action := j_action j;
     j_status := final_status; j_started_at := j_started_at j;
     j_finished_at := Some now; j_rc := rc;
     j_stdout_tail := stdout_tail; j_stderr_tail := stderr_tail;
     j_attempts := j_attempts j |}.

Definition update_where_id (job_id : Z) (f : Job -> Job) (db : Database) : Database :=
  set_jobs db (map (fun j => if j_id j =? job_id then f j else j) (jobs db))
           (seq_jobs db).

(** [phase] is what [event.get("phase")] gave: [None] when the payload
    has no such key. *)
Definition update_job_status (db : Database) (job_id : Z) (phase : option string)
    (status : option string) (rc : option Z)
    (stdout_tail stderr_tail : option string) (now : string) : Database :=
  if opt_str_eqb phase (Some "start") then
    update_where_id job_id (job_started now) db
  else if opt_str_eqb phase (Some "completed") then
    let final_status := or_str status "Succeeded" in
    update_where_id job_id
      (job_completed final_status now rc stdout_tail stderr_tail) db
  else db.

(** *** Assignments *)

Definition find_assignment (db : Database) (computer_id package_id : Z)
  : option Assignment :=
  find (fun a => (a_computer_id a =? computer_id) && (a_package_id a =? package_id))
       (assignments db).

Definition with_desired_state (desired_state now : string) (a : Assignment)
  : Assignment :=
  {| a_id := a_id a; a_computer_id := a_computer_id a;
     a_package_id := a_package_id a; a_desired_state := desired_state;
     a_created_at := a_created_at a; a_updated_at := Some now |}.

Definition set_assignment (db : Database) (computer_id package_id : Z)
    (desired_state : string) (now : string) : Z * Database :=
  match find_assignment db computer_id package_id with
  | Some row =>
      let assignment_id := a_id row in
      if negb (String.eqb (a_desired_state row) desired_state) then
        let db1 :=
          set_assignments db
            (map (fun a => if a_id a =? assignment_id
                           then with_desired_state desired_state now a else a)
                 (assignments db))
            (seq_assignments db) in
        if actionable desired_state
        then (assignment_id, snd (schedule_job db1 computer_id package_id desired_state))
        else (assignment_id, db1)
      else (assignment_id, db)
  | None =>
      let assignment_id := seq_assignments db + 1 in
      let row := {| a_id := assignment_id; a_computer_id := computer_id;
                    a_package_id := package_id; a_desired_state := desired_state;
                    a_created_at := Some now; a_updated_at := Some now |} in
      let db1 := set_assignments db (assignments db ++ [row]) assignment_id in
      if actionable desired_state
      then (assignment_id, snd (schedule_job db1 computer_id package_id desired_state))
      else (assignment_id, db1)
  end.

(** *** Plan computation *)

(** The [ON] condition of the [LEFT JOIN] on jobs. *)
Definition pair_in_flight (computer_id package_id : Z) (j : Job) : bool :=
  (j_computer_id j =? computer_id)
  && (j_package_id j =? package_id)
  && non_terminal (j_status j).

(** The jobs the [LEFT JOIN] matches with an assignment row. *)
Definition in_flight_jobs (db : Database) (computer_id package_id : Z) : list Job :=
  filter (pair_in_flight computer_id package_id) (jobs db).

(** Rows of the [SELECT]: assignments of the computer, inner-joined with
    their package, left-joined with the in-flight jobs of the pair (one
    row per such job, or a single row with a [NULL] job).  The query has
    no [ORDER BY]; the rows are listed in table order, and the properties
    below do not depend on it. *)
Definition plan_rows (db : Database) (cid : Z)
  : list (Assignment * Package * option Job) :=
  flat_map
    (fun a =>
       if a_computer_id a =? cid then
         flat_map
           (fun p =>
              if p_id p =? a_package_id a then
                match in_flight_jobs db (a_computer_id a) (a_package_id a) with
                | [] => [(a, p, None)]
                | js => map (fun j => (a, p, Some j)) js
                end
              else [])
           (packages db)
       else [])
    (assignments db).

Definition package_dict (a : Assignment) (p : Package) : PackageSpec :=
  {| id := a_package_id a;
     name := p_name p;
     version := p_version p;
     platform := p_platform p;
     download_url := or_str (p_download_url p) "";
     sha256 := or_str (p_sha256 p) "";
     install_cmd := or_str (p_install_cmd p) "";
     uninstall_cmd := or_str (p_uninstall_cmd p) "";
     silent_args := or_str (p_silent_args p) "";
     precheck_cmd := or_str (p_precheck_cmd p) "";
     postcheck_cmd := or_str (p_postcheck_cmd p) "";
     expected_exit_codes := p_expected_exit_codes p |}.

Definition plan_entry (row : Assignment * Package * option Job) : PlanAssignment :=
  let '(a, p, j) := row in
  {| job_id := option_map j_id j;
     action := a_desired_state a;
     package := package_dict a p |}.

Definition get_plan_for_computer (db : Database) (cid : Z) : list PlanAssignment :=
  map plan_entry
      (filter (fun row => actionable (a_desired_state (fst (fst row))))
              (plan_rows db cid)).

(** *** Reads *)

(** [SELECT * FROM computers WHERE token = ? AND token_revoked = 0] *)
Definition get_computer_by_token (db : Database) (token : string) : option Computer :=
  find (fun c => opt_str_eqb (c_token c) (Some token) && (c_token_revoked c =? 0))
       (computers db).

Definition get_package (db : Database) (pid : Z) : option Package :=
  find (fun p => p_id p =? pid) (packages db).

(** The counts of the dashboard. *)
Record Summary := {
  s_computers : nat;
  s_packages : nat;
  s_assignments : nat;
  s_jobs : nat;
  s_failed_jobs : nat;
  s_succeeded_jobs : nat
}.

Definition get_summary (db : Database) : Summary :=
  {| s_computers := List.length (computers db);
     s_packages := List.length (packages db);
     s_assignments := List.length (assignments db);
     s_jobs := List.length (jobs db);
     s_failed_jobs :=
       List.length (filter (fun j => String.eqb (j_status j) "Failed") (jobs db));
     s_succeeded_jobs :=
       List.length (filter (fun j => String.eqb (j_status j) "Succeeded") (jobs db)) |}.

(** *** Administrative edits *)






End Server.

(** ** server/main.py: the JSON API *)

Module ServerApi.
Import Models Server.

(** The decoded body of an enrolment request. *)
Record EnrollPayload := {
  en_hostname : option string;
  en_os : option string;
  en_arch : option string;
  en_client_version : option string
}.

(** The decoded body of a job event: every key may be missing. *)
Record EventPayload := {
  ev_phase : option string;
  ev_status : option string;
  ev_rc : option Z;
  ev_stdout_tail : option string;
  ev_stderr_tail : option string
}.

(** [json.dumps(event.__dict__)] as the server decodes it. *)
Definition payload_of_event (e : JobEvent) : EventPayload :=
  {| ev_phase := Some (phase e); ev_status := status e; ev_rc := rc e;
     ev_stdout_tail := stdout_tail e; ev_stderr_tail := stderr_tail e |}.

(** The three routes of [handle_api], after path and header parsing;
    [auth] is what [_get_bearer_token] returned. *)
Inductive Request :=
| Enroll (payload : EnrollPayload)
| FetchPlan (cid : Z) (auth : option string)
| PostJobEvent (job_id : Z) (auth : option string) (event : EventPayload).

Inductive Body :=
| Detail (msg : string)
| Enrolled (cid : Z) (token : string)
| Assignments (plan : list PlanAssignment).

Record Response := { code : Z; body : Body }.

Definition _json_response (status_code : Z) (data : Body) : Response :=
  {| code := status_code; body := data |}.

(** [fresh_token] is the value [secrets.token_hex(16)] returns and [now]
    the clock reading of the request. *)
Definition handle_enroll (db : Database) (payload : EnrollPayload)
    (fresh_token now : string) : result Response * Database :=
  let hostname := strip (or_str (en_hostname payload) "") in
  let os_name := strip (or_str (en_os payload) "") in
  let arch := strip (or_str (en_arch payload) "") in
  let client_version := en_client_version payload in
  if negb (truthy hostname) then
    (Ok (_json_response 400 (Detail "hostname is required")), db)
  else
    let '(created, db1) :=
      match get_computer_by_hostname db hostname with
      | Some comp => (Ok (c_id comp), db)
      | None => create_computer db hostname os_name arch "[]"
      end in
    match created with
    | Raise e => (Raise e, db1)
    | Ok cid =>
        match set_token_and_meta db1 cid fresh_token os_name arch client_version with
        | (Raise e, db2) => (Raise e, db2)
        | (Ok _, db2) =>
            let db3 := update_last_check_in db2 cid now in
            (Ok (_json_response 200 (Enrolled cid fresh_token)), db3)
        end
    end.

Definition token_missing (auth : option string) : bool :=
  match auth with
  | Some t => negb (truthy t)
  | None => true
  end.

Definition handle_plan (db : Database) (cid : Z) (auth : option string)
    (now : string) : result Response * Database :=
  if token_missing auth then
    (Ok (_json_response 401 (Detail "Missing bearer token")), db)
  else
    match get_computer db cid with
    | None => (Ok (_json_response 401 (Detail "Unauthorized")), db)
    | Some comp =>
        if negb (c_token_revoked comp =? 0) then
          (Ok (_json_response 401 (Detail "Unauthorized")), db)
        else if negb (opt_str_eqb (c_token comp) auth) then
          (Ok (_json_response 401 (Detail "Invalid token")), db)
        else
          let db1 := update_last_check_in db cid now in
          (Ok (_json_response 200 (Assignments (get_plan_for_computer db1 cid))), db1)
    end.

Definition handle_job_event (db : Database) (job_id : Z) (auth : option string)
    (event : EventPayload) (now : string) : result Response * Database :=
  if token_missing auth then
    (Ok (_json_response 401 (Detail "Missing bearer token")), db)
  else
    match get_job db job_id with
    | None => (Ok (_json_response 404 (Detail "Job not found")), db)
    | Some job =>
        match get_computer db (j_computer_id job) with
        | None => (Ok (_json_response 401 (Detail "Unauthorized")), db)
        | Some comp =>
            if negb (opt_str_eqb (c_token comp) auth)
               || negb (c_token_revoked comp =? 0)
            then (Ok (_json_response 401 (Detail "Unauthorized")), db)
            else
              let db1 :=
                update_job_status db job_id (ev_phase event) (ev_status event)
                  (ev_rc event) (ev_stdout_tail event) (ev_stderr_tail event) now in
              (Ok (_json_response 200 (Detail "ok")), db1)
        end
    end.

Definition handle_api (db : Database) (req : Request) (fresh_token now : string)
  : result Response * Database :=
  match req with
  | Enroll payload => handle_enroll db payload fresh_token now
  | FetchPlan cid auth => handle_plan db cid auth now
  | PostJobEvent job_id auth event => handle_job_event db job_id auth event now
  end.

(** [__call__]: an exception raised by a handler becomes a 500. *)
Definition call (db : Database) (req : Request) (fresh_token now : string)
  : Response * Database :=
  match handle_api db req fresh_token now with
  | (Ok r, db') => (r, db')
  | (Raise e, db') =>
      ({| code := 500; body := Detail ("Internal server error: " ++ e) |}, db')
  end.

(** The row of a machine after it enrolled again. *)
Definition reenrolled (payload : EnrollPayload) (fresh_token now : string)
    (c : Computer) : Computer :=
  with_last_check_in now
    (with_token_and_meta fresh_token
       (strip (or_str (en_os payload) "")) (strip (or_str (en_arch payload) ""))
       (en_client_version payload) c).

(** *** The Authorization header *)

(** [s.split()]: the maximal runs of non-whitespace characters; [cur] is
    the run being read. *)
Fixpoint split_from (s : string) (cur : string) : list string :=
  match s with
  | EmptyString => if truthy cur then [cur] else []
  | String c r =>
      if is_space c
      then if truthy cur then cur :: split_from r "" else split_from r ""
      else split_from r (cur ++ String c "")
  end.

Definition split (s : string) : list string := split_from s "".


(** Computer ids are a primary key handed out by the sequence. *)
Definition computer_keys_ok (db : Database) : Prop :=
  NoDup (map c_id (computers db))
  /\ Forall (fun c => c_id c <= seq_computers db) (computers db).

(** No machine holds the token. *)
Definition token_unused (db : Database) (token : string) : bool :=
  forallb (fun c => negb (opt_str_eqb (c_token c) (Some token))) (computers db).


End ServerApi.

(** ** Histories of the server store *)

Module History.
Import Server.

(** The operations that touch the assignments and jobs tables. *)
Inductive Op :=
| SetAssignment (computer_id package_id : Z) (desired_state now : string)
| ScheduleJob (computer_id package_id : Z) (action : string)
| JobEvent (job_id : Z) (phase status : option string) (rc : option Z)
           (stdout_tail stderr_tail : option string) (now : string).

Definition step (db : Database) (op : Op) : Database :=
  match op with
  | SetAssignment c p d now => snd (set_assignment db c p d now)
  | ScheduleJob c p a => snd (schedule_job db c p a)
  | JobEvent j ph st rc out err now => update_job_status db j ph st rc out err now
  end.

Definition run (db : Database) (ops : list Op) : Database :=
  fold_left step ops db.

(** At most one job of the pair is [Pending] or [InProgress]. *)
Definition at_most_one_in_flight (db : Database) : Prop :=
  forall c p, (List.length (in_flight_jobs db c p) <= 1)%nat.

(** Job ids are a primary key handed out by the sequence. *)
Definition keys_ok (db : Database) : Prop :=
  NoDup (map j_id (jobs db))
  /\ Forall (fun j => j_id j <= seq_jobs db) (jobs db).

(** [set_assignment] reaches its [schedule_job] call. *)
Definition schedules (db : Database) (c p : Z) (desired_state : string) : bool :=
  actionable desired_state
  && match find_assignment db c p with
     | Some row => negb (String.eqb (a_desired_state row) desired_state)
     | None => true
     end.

Definition job_in_flight (db : Database) (job_id : Z) : bool :=
  match get_job db job_id with
  | Some j => non_terminal (j_status j)
  | None => false
  end.

(** The event writes [Pending] or [InProgress] into the row it targets. *)
Definition writes_in_flight (phase status : option string) : bool :=
  opt_str_eqb phase (Some "start")
  || (opt_str_eqb phase (Some "completed")
      && non_terminal (or_str status "Succeeded")).

(** The discipline under which the code keeps the pairs single: a job is
    scheduled only for a pair with nothing in flight, and an event that
    writes [Pending] or [InProgress] only targets a job that is in flight
    (or no job at all). *)
Definition disciplined (db : Database) (op : Op) : bool :=
  match op with
  | SetAssignment c p d _ =>
      if schedules db c p d
      then match in_flight_jobs db c p with [] => true | _ => false end
      else true
  | ScheduleJob c p _ =>
      match in_flight_jobs db c p with [] => true | _ => false end
  | JobEvent j ph st _ _ _ _ =>
      if writes_in_flight ph st
      then job_in_flight db j
           || match get_job db j with None => true | Some _ => false end
      else true
  end.

Fixpoint disciplined_run (db : Database) (ops : list Op) : bool :=
  match ops with
  | [] => true
  | op :: rest => disciplined db op && disciplined_run (step db op) rest
  end.

(** One machine enrolled with token [tok-1], one package; the install
    job of the pair is scheduled, started and reported as succeeded. *)
Definition enrolled_db : Database :=
  snd (ServerApi.handle_api empty_db
         (ServerApi.Enroll
            {| ServerApi.en_hostname := Some "host1";
               ServerApi.en_os := Some "linux";
               ServerApi.en_arch := Some "x86_64";
               ServerApi.en_client_version := Some "0.9" |})
         "tok-1" "t0").

Definition converged_db : Database :=
  run (snd (create_package enrolled_db "tool" "1.0" "linux" "" "" "install-tool"
                           "remove-tool" "" "" "" [0]))
      [SetAssignment 1 1 "install" "t1";
       JobEvent 1 (Some "start") None None None None "t2";
       JobEvent 1 (Some "completed") (Some "Succeeded") (Some 0)
                (Some "ok") (Some "") "t3"].

(** Two changes of the desired state in a row, the second while the
    first job is still pending. *)
Definition flip_flop : list Op :=
  [SetAssignment 1 1 "install" "t1"; SetAssignment 1 1 "uninstall" "t2"].

Definition full_cycle : list Op :=
  [SetAssignment 1 1 "install" "t1";
   JobEvent 1 (Some "start") None None None None "t2";
   JobEvent 1 (Some "completed") (Some "Succeeded") (Some 0) (Some "ok") (Some "") "t3";
   SetAssignment 1 1 "uninstall" "t4";
   SetAssignment 2 1 "install" "t5"].



(** The operation is a [start] event for job [k]. *)
Definition is_start_for (k : Z) (op : Op) : bool :=
  match op with
  | JobEvent j ph _ _ _ _ _ => (j =? k) && opt_str_eqb ph (Some "start")
  | _ => false
  end.

(** Assignment ids are a primary key handed out by the sequence. *)
Definition assignment_keys_ok (db : Database) : Prop :=
  NoDup (map a_id (assignments db))
  /\ Forall (fun a => a_id a <= seq_assignments db) (assignments db).

(** The [Pending] row [schedule_job] inserts. *)
Definition pending_job (db : Database) (c p : Z) (action : string) : Job :=
  {| j_id := seq_jobs db + 1; j_computer_id := c; j_package_id := p;
     j_action := action; j_status := "Pending"; j_started_at := None;
     j_finished_at := None; j_rc := None; j_stdout_tail := None;
     j_stderr_tail := None; j_attempts := 0 |}.

(** Two machines enrolled, with tokens [tok-1] and [tok-2]. *)
Definition two_machines_db : Database :=
  snd (ServerApi.handle_api enrolled_db
         (ServerApi.Enroll
            {| ServerApi.en_hostname := Some "host2";
               ServerApi.en_os := Some "linux";
               ServerApi.en_arch := Some "arm64";
               ServerApi.en_client_version := None |})
         "tok-2" "t1").

End History.

(** ** client/service: the agent *)

Module Agent.
Import Models.

(** *** db.py: the Ledger *)

Record InstalledRow := {
  r_id : Z;
  r_package_id : Z;
  r_name : string;
  r_version : string;
  r_status : string;
  r_last_action : string;
  r_last_rc : Z
}.

Record ClientDB := {
  installed_packages : list InstalledRow;
  seq_installed : Z
}.

Definition empty_ledger : ClientDB :=
  {| installed_packages := []; seq_installed := 0 |}.

Definition get_installed (db : ClientDB) (package_id : Z) : option InstalledRow :=
  find (fun r => r_package_id r =? package_id) (installed_packages db).

Definition with_installed (version status now : string) (rc : Z) (r : InstalledRow)
  : InstalledRow :=
  {| r_id := r_id r; r_package_id := r_package_id r; r_name := r_name r;
     r_version := version; r_status := status; r_last_action := now;
     r_last_rc := rc |}.

Definition update_installed (db : ClientDB) (package_id : Z)
    (name version status : string) (rc : Z) (now : string) : ClientDB :=
  match get_installed db package_id with
  | Some _ =>
      {| installed_packages :=
           map (fun r => if r_package_id r =? package_id
                         then with_installed version status now rc r else r)
               (installed_packages db);
         seq_installed := seq_installed db |}
  | None =>
      let rid := seq_installed db + 1 in
      {| installed_packages :=
           installed_packages db ++
           [{| r_id := rid; r_package_id := package_id; r_name := name;
               r_version := version; r_status := status;
               r_last_action := now; r_last_rc := rc |}];
         seq_installed := rid |}
  end.

(** At most one Ledger row per package id. *)
Definition single_rows (db : ClientDB) : Prop :=
  forall package_id,
    (List.length (filter (fun r => Z.eqb (r_package_id r) package_id)
                         (installed_packages db)) <= 1)%nat.

(** *** network.py *)

Record Config := {
  server_url : string;
  client_id : option Z;
  token : option string;
  poll_interval : Z
}.

(** [cfg.client_id is None or not cfg.token], negated. *)
Definition enrolled (cfg : Config) : bool :=
  match client_id cfg, token cfg with
  | Some _, Some t => truthy t
  | _, _ => false
  end.

(** *** What the agent does to its host and to the network *)

Inductive Effect :=
| Subprocess (command : string)
| Download (url dest : string)
| Post (job : Z) (event : JobEvent).

(** The host capabilities the installer calls: the file system, the
    artifact server, the process runner, the clock.  [format_file t p]
    is [t.format(file=p)], which raises on a template with other
    fields. *)
Class Host (W : Type) := {
  mkdir : string -> W -> result unit * W;
  path_exists : string -> W -> bool;
  urlopen_to_file : string -> string -> W -> result unit * W;
  file_sha256 : string -> W -> result string;
  subprocess_run : string -> W -> result (Z * string * string) * W;
  format_file : string -> string -> result string;
  utcnow : W -> string
}.

Record State (W : Type) := {
  world : W;
  ledger : ClientDB;
  log : list Effect
}.
Arguments world {W} _.
Arguments ledger {W} _.
Arguments log {W} _.

(** Computations over the agent state that may raise; the state reached
    when an exception is raised is kept, as in Python. *)
Definition M (W A : Type) : Type := State W -> result A * State W.

Section Monad.
Context {W : Type}.

Definition ret {A} (a : A) : M W A := fun st => (Ok a, st).

Definition bind {A B} (m : M W A) (k : A -> M W B) : M W B :=
  fun st =>
    match m st with
    | (Ok a, st') => k a st'
    | (Raise e, st') => (Raise e, st')
    end.

Definition try_except {A} (m : M W A) (handler : string -> M W A) : M W A :=
  fun st =>
    match m st with
    | (Ok a, st') => (Ok a, st')
    | (Raise e, st') => handler e st'
    end.

Definition emit (e : Effect) : M W unit :=
  fun st => (Ok tt, {| world := world st; ledger := ledger st;
                       log := log st ++ [e] |}).

Definition on_world {A} (f : W -> result A * W) : M W A :=
  fun st =>
    let '(r, w) := f (world st) in
    (r, {| world := w; ledger := ledger st; log := log st |}).

Definition read_world {A} (f : W -> A) : M W A :=
  fun st => (Ok (f (world st)), st).

Definition of_result {A} (r : result A) : M W A := fun st => (r, st).

Definition read_ledger {A} (f : ClientDB -> A) : M W A :=
  fun st => (Ok (f (ledger st)), st).

Definition write_ledger (f : ClientDB -> ClientDB) : M W unit :=
  fun st => (Ok tt, {| world := world st; ledger := f (ledger st);
                       log := log st |}).

(** A computation that leaves the Ledger as it found it. *)
Definition keeps_ledger {A} (m : M W A) : Prop :=
  forall st r st', m st = (r, st') -> ledger st' = ledger st.

(** Every effect a computation adds to the log satisfies [P]; nothing is
    taken from the log. *)
Definition emits (P : Effect -> Prop) {A} (m : M W A) : Prop :=
  forall st r st', m st = (r, st') ->
    exists es, log st' = log st ++ es /\ Forall P es.

(** The computation returns normally from every state. *)
Definition never_raises {A} (m : M W A) : Prop :=
  forall st, exists a st', m st = (Ok a, st').

End Monad.

Notation "x <- m ;; k" := (bind m (fun x => k))
  (at level 61, m at next level, right associativity).
Notation "m ;;; k" := (bind m (fun _ => k))
  (at level 61, right associativity).

Section Executor.
Context {W : Type} `{Host W}.

(** *** installer.py *)

Definition download_file (url dest : string) : M W unit :=
  emit (Download url dest) ;;;
  on_world (urlopen_to_file url dest).

Definition verify_sha256 (path expected_hex : string) : M W bool :=
  if negb (truthy expected_hex) then ret true
  else
    digest <- (fun st => (file_sha256 path (world st), st)) ;;
    ret (String.eqb (lower digest) (lower expected_hex)).

Definition run_subprocess (command : string) : M W (Z * string * string) :=
  emit (Subprocess command) ;;;
  try_except
    (proc <- on_world (subprocess_run command) ;;
     let '(returncode, stdout, stderr) := proc in
     ret (returncode, tail_chars 4096 stdout, tail_chars 4096 stderr))
    (fun e => ret (1, "", e)).

Definition cache_dir : string := "artifact_cache".

Definition artifact_path (pkg : PackageSpec) : string :=
  (cache_dir ++ "/" ++ "pkg_" ++ str_of_Z (id pkg) ++ "_" ++ version pkg)%string.

(** The artifact block: [Some r] is an early [return r]. *)
Definition fetch_artifact (pkg : PackageSpec)
  : M W (option (Z * string * string)) :=
  if truthy (download_url pkg) then
    fetched <-
      try_except
        (present <- read_world (path_exists (artifact_path pkg)) ;;
         (if negb present
          then download_file (download_url pkg) (artifact_path pkg)
          else ret tt) ;;;
         ret (@None string))
        (fun e => ret (Some e)) ;;
    match fetched with
    | Some e => ret (Some (1, "", ("Download failed: " ++ e)%string))
    | None =>
        good <- verify_sha256 (artifact_path pkg) (sha256 pkg) ;;
        if negb good then ret (Some (1, "", "Checksum mismatch"))
        else ret None
    end
  else ret None.

(** The pre-check block. *)
Definition run_precheck (pkg : PackageSpec)
  : M W (option (Z * string * string)) :=
  if truthy (precheck_cmd pkg) then
    r <- run_subprocess (precheck_cmd pkg) ;;
    if negb (fst (fst r) =? 0) then ret (Some r) else ret None
  else ret None.

(** [base_cmd = pkg.install_cmd or ""] for an install, the uninstall
    command otherwise. *)
Definition base_cmd (pkg : PackageSpec) (action : string) : string :=
  if String.eqb action "install" then install_cmd pkg else uninstall_cmd pkg.

(** [cmd = f"{cmd} {pkg.silent_args}"] when there are silent arguments. *)
Definition with_silent_args (pkg : PackageSpec) (cmd : string) : string :=
  if truthy (silent_args pkg)
  then (cmd ++ " " ++ silent_args pkg)%string else cmd.

Definition perform_action (assignment : PlanAssignment) (action : string)
  : M W (Z * string * string) :=
  let pkg := package assignment in
  on_world (mkdir cache_dir) ;;;
  early <- fetch_artifact pkg ;;
  match early with
  | Some r => ret r
  | None =>
      early <- run_precheck pkg ;;
      match early with
      | Some r => ret r
      | None =>
          if negb (truthy (base_cmd pkg action))
          then ret (1, "", "No command defined")
          else
            cmd <- of_result (format_file (base_cmd pkg action)
                                          (artifact_path pkg)) ;;
            let cmd := with_silent_args pkg cmd in
            r <- run_subprocess cmd ;;
            if truthy (postcheck_cmd pkg) then
              r2 <- run_subprocess (postcheck_cmd pkg) ;;
              if negb (fst (fst r2) =? 0) then ret r2 else ret r
            else ret r
      end
  end.

(** *** network.post_job_event

    The request is issued when the agent is enrolled; what the
    transport does with it is not part of the model. *)
Definition post_job_event (cfg : Config) (job : Z) (event : JobEvent) : M W unit :=
  if negb (enrolled cfg) then ret tt else emit (Post job event).

(** *** main.py: the body of the loop over the plan *)

Definition completed_event (st : string) (code : Z) (out err : string) : JobEvent :=
  {| phase := "completed"; status := Some st; rc := Some code;
     stdout_tail := Some out; stderr_tail := Some err |}.

Definition start_event : JobEvent :=
  {| phase := "start"; status := None; rc := None;
     stdout_tail := None; stderr_tail := None |}.

(** [if job_id is not None: network.post_job_event(cfg, job_id, event)] *)
Definition report (cfg : Config) (job : option Z) (event : JobEvent) : M W unit :=
  match job with
  | Some j => post_job_event cfg j event
  | None => ret tt
  end.

(** The two idempotency tests on the Ledger row of the package. *)
Definition already_installed (local_pkg : option InstalledRow) (pkg : PackageSpec)
  : bool :=
  match local_pkg with
  | Some r => String.eqb (r_version r) (version pkg)
              && String.eqb (r_status r) "installed"
  | None => false
  end.

Definition already_uninstalled (local_pkg : option InstalledRow) : bool :=
  match local_pkg with
  | Some r => negb (String.eqb (r_status r) "installed")
  | None => true
  end.

(** [ok_codes = pkg.expected_exit_codes or [0]];
    [status = "Succeeded" if rc in ok_codes else "Failed"] *)
Definition classify (pkg : PackageSpec) (code : Z) : string :=
  let ok_codes := or_list (expected_exit_codes pkg) [0] in
  if existsb (Z.eqb code) ok_codes then "Succeeded" else "Failed".

(** [# update local DB] *)
Definition record_outcome (assignment : PlanAssignment) (st : string) (code : Z)
  : M W unit :=
  let action := action assignment in
  let pkg := package assignment in
  if String.eqb action "install" && String.eqb st "Succeeded" then
    now <- read_world utcnow ;;
    write_ledger (fun db => update_installed db (id pkg) (name pkg)
                              (version pkg) "installed" code now)
  else if String.eqb action "uninstall" && String.eqb st "Succeeded" then
    now <- read_world utcnow ;;
    write_ledger (fun db => update_installed db (id pkg) (name pkg)
                              (version pkg) "uninstalled" code now)
  else ret tt.

(** [try: rc, out, err = installer.perform_action(...)
     except Exception as e: rc, out, err = 1, "", str(e)] *)
Definition guarded_action (assignment : PlanAssignment)
  : M W (Z * string * string) :=
  try_except (perform_action assignment (action assignment))
             (fun e => ret (1, "", e)).

(** Start event, pipeline, classification, Ledger update, completion. *)
Definition execute (cfg : Config) (assignment : PlanAssignment) : M W unit :=
  let job := job_id assignment in
  let pkg := package assignment in
  report cfg job start_event ;;;
  r <- guarded_action assignment ;;
  let '(code, out, err) := r in
  let st := classify pkg code in
  record_outcome assignment st code ;;;
  report cfg job (completed_event st code out err).

Definition process_assignment (cfg : Config) (assignment : PlanAssignment)
  : M W unit :=
  let action := action assignment in
  let job := job_id assignment in
  let pkg := package assignment in
  local_pkg <- read_ledger (fun db => get_installed db (id pkg)) ;;
  if String.eqb action "install" then
    if already_installed local_pkg pkg then
      report cfg job (completed_event "Succeeded" 0 "already installed" "")
    else execute cfg assignment
  else if String.eqb action "uninstall" then
    if already_uninstalled local_pkg then
      report cfg job (completed_event "Succeeded" 0 "already uninstalled" "")
    else execute cfg assignment
  else execute cfg assignment.

(** [for assignment in assignments: ...] *)
Fixpoint process_plan (cfg : Config) (assignments : list PlanAssignment)
  : M W unit :=
  match assignments with
  | [] => ret tt
  | a :: rest => process_assignment cfg a ;;; process_plan cfg rest
  end.

(** *** Vocabulary of the statements *)

(** The requests [report] issues. *)
Definition posted (cfg : Config) (job : option Z) (event : JobEvent)
  : list Effect :=
  match job with
  | Some j => if enrolled cfg then [Post j event] else []
  | None => []
  end.

Definition logged (st : State W) (es : list Effect) : State W :=
  {| world := world st; ledger := ledger st; log := log st ++ es |}.

(** The state in which the pipeline starts: the start event went out. *)
Definition started (cfg : Config) (assignment : PlanAssignment) (st : State W)
  : State W :=
  logged st (posted cfg (job_id assignment) start_event).

(** The Ledger already shows the target state of the entry. *)
Definition ledger_matches_target (db : ClientDB) (assignment : PlanAssignment)
  : Prop :=
  let pkg := package assignment in
  (action assignment = "install"
   /\ exists r, get_installed db (id pkg) = Some r
                /\ r_version r = version pkg /\ r_status r = "installed")
  \/ (action assignment = "uninstall"
      /\ (get_installed db (id pkg) = None
          \/ exists r, get_installed db (id pkg) = Some r
                       /\ r_status r <> "installed")).

(** The test [main] makes before it [continue]s. *)
Definition short_circuits (db : ClientDB) (assignment : PlanAssignment) : bool :=
  let local_pkg := get_installed db (id (package assignment)) in
  (String.eqb (action assignment) "install"
   && already_installed local_pkg (package assignment))
  || (String.eqb (action assignment) "uninstall"
      && already_uninstalled local_pkg).

Definition gate_message (assignment : PlanAssignment) : string :=
  if String.eqb (action assignment) "install"
  then "already installed" else "already uninstalled".

(** The artifact of the package is in the cache at [st'], either
    because it was there at [st] or because it was downloaded. *)
Definition artifact_retrieved (pkg : PackageSpec) (st st' : State W) : Prop :=
  truthy (download_url pkg) = true
  /\ ((path_exists (artifact_path pkg) (world st) = true /\ st' = st)
      \/ (path_exists (artifact_path pkg) (world st) = false
          /\ download_file (download_url pkg) (artifact_path pkg) st
             = (Ok tt, st'))).

(** From [st], the pipeline got as far as running the main command,
    which returned [r] and left the state [st']. *)
Definition main_command_ran (assignment : PlanAssignment) (st : State W)
    (r : Z * string * string) (st' : State W) : Prop :=
  let pkg := package assignment in
  exists st1 st2 st3 cmd,
    on_world (mkdir cache_dir) st = (Ok tt, st1)
    /\ fetch_artifact pkg st1 = (Ok None, st2)
    /\ run_precheck pkg st2 = (Ok None, st3)
    /\ truthy (base_cmd pkg (action assignment)) = true
    /\ format_file (base_cmd pkg (action assignment)) (artifact_path pkg) = Ok cmd
    /\ run_subprocess (with_silent_args pkg cmd) st3 = (Ok r, st').

(** The Ledger [record_outcome] leaves behind. *)
Definition ledger_after (assignment : PlanAssignment) (code : Z) (st : State W)
  : ClientDB :=
  let pkg := package assignment in
  let outcome := classify pkg code in
  if String.eqb (action assignment) "install" && String.eqb outcome "Succeeded"
  then update_installed (ledger st) (id pkg) (name pkg) (version pkg)
                        "installed" code (utcnow (world st))
  else if String.eqb (action assignment) "uninstall"
          && String.eqb outcome "Succeeded"
  then update_installed (ledger st) (id pkg) (name pkg) (version pkg)
                        "uninstalled" code (utcnow (world st))
  else ledger st.

(** The failures inside the pipeline that come back as result code 1,
    with the output and error text they carry: the download raised,
    the checksum did not match, the package has no command for the
    action, or [perform_action] raised. *)
Inductive internal_failure (assignment : PlanAssignment) (st : State W)
  : string -> string -> State W -> Prop :=
| download_failure st1 st2 e :
    on_world (mkdir cache_dir) st = (Ok tt, st1) ->
    truthy (download_url (package assignment)) = true ->
    path_exists (artifact_path (package assignment)) (world st1) = false ->
    download_file (download_url (package assignment))
                  (artifact_path (package assignment)) st1 = (Raise e, st2) ->
    internal_failure assignment st "" ("Download failed: " ++ e) st2
| checksum_failure st1 st2 digest :
    on_world (mkdir cache_dir) st = (Ok tt, st1) ->
    artifact_retrieved (package assignment) st1 st2 ->
    truthy (sha256 (package assignment)) = true ->
    file_sha256 (artifact_path (package assignment)) (world st2) = Ok digest ->
    lower digest <> lower (sha256 (package assignment)) ->
    internal_failure assignment st "" "Checksum mismatch" st2
| missing_command st1 st2 st3 :
    on_world (mkdir cache_dir) st = (Ok tt, st1) ->
    fetch_artifact (package assignment) st1 = (Ok None, st2) ->
    run_precheck (package assignment) st2 = (Ok None, st3) ->
    truthy (base_cmd (package assignment) (action assignment)) = false ->
    internal_failure assignment st "" "No command defined" st3
| caught_exception e st1 :
    perform_action assignment (action assignment) st = (Raise e, st1) ->
    internal_failure assignment st "" e st1.

(** The effect is a request to the server. *)
Definition is_post (e : Effect) : bool :=
  match e with
  | Post _ _ => true
  | _ => false
  end.

Definition not_post (e : Effect) : Prop := is_post e = false.


End Executor.

End Agent.

(** ** A scripted host, to run the agent on concrete inputs *)

Module Scripted.
Import Models Agent.

(** Files are known by the hex digest of their content, URLs by the
    digest of what they serve, programs by what they exit with. *)
Record World := {
  files : list (string * string);
  remote : list (string * string);
  programs : list (string * (Z * string * string));
  clock : string
}.

Definition lookup {A : Type} (k : string) (l : list (string * A)) : option A :=
  option_map snd (find (fun kv => String.eqb (fst kv) k) l).

Fixpoint has_brace (s : string) : bool :=
  match s with
  | String c r =>
      Ascii.eqb c "{"%char || Ascii.eqb c "}"%char || has_brace r
  | EmptyString => false
  end.

#[export] Instance scripted_host : Host World := {|
  mkdir := fun _ w => (Ok tt, w);
  path_exists := fun p w =>
    match lookup p (files w) with Some _ => true | None => false end;
  urlopen_to_file := fun url dest w =>
    match lookup url (remote w) with
    | Some d =>
        (Ok tt, {| files := (dest, d) :: files w; remote := remote w;
                   programs := programs w; clock := clock w |})
    | None => (Raise "HTTP Error 404: Not Found", w)
    end;
  file_sha256 := fun p w =>
    match lookup p (files w) with
    | Some d => Ok d
    | None => Raise "No such file or directory"
    end;
  subprocess_run := fun c w =>
    match lookup c (programs w) with
    | Some r => (Ok r, w)
    | None => (Ok (127, "", "command not found"), w)
    end;
  format_file := fun t _ =>
    if has_brace t then Raise "unsupported template" else Ok t;
  utcnow := clock
|}.

Definition cfg0 : Config :=
  {| server_url := "http://localhost:8000"; client_id := Some 1;
     token := Some "t0"; poll_interval := 600 |}.

(** Package 7 at version 1.0, with a checksum, a post-check, and the
    exit codes given. *)
Definition pkg0 (codes : list Z) : PackageSpec :=
  {| id := 7; name := "tool"; version := "1.0"; platform := "linux";
     download_url := "http://repo/tool"; sha256 := "AB12";
     install_cmd := "install-tool"; uninstall_cmd := "remove-tool";
     silent_args := "/S"; precheck_cmd := ""; postcheck_cmd := "check-tool";
     expected_exit_codes := codes |}.

Definition entry0 (job : option Z) (act : string) (codes : list Z) : PlanAssignment :=
  {| job_id := job; action := act; package := pkg0 codes |}.

Definition row0 (st : string) : InstalledRow :=
  {| r_id := 1; r_package_id := 7; r_name := "tool"; r_version := "1.0";
     r_status := st; r_last_action := "2024-01-01T00:00:00"; r_last_rc := 0 |}.

Definition ledger0 (st : string) : ClientDB :=
  {| installed_packages := [row0 st]; seq_installed := 1 |}.

(** A host whose cached artifact has digest [digest] and whose
    post-check exits with [check_rc]. *)
Definition world0 (digest : string) (check_rc : Z) : World :=
  {| files := [("artifact_cache/pkg_7_1.0", digest)];
     remote := [];
     programs := [("install-tool /S", (0, "installed fine", ""));
                  ("remove-tool /S", (0, "removed", ""));
                  ("check-tool", (check_rc, "check output", "check error"))];
     clock := "2024-06-01T12:00:00" |}.

(** A host with an empty cache; the artifact server serves content of
    digest [digest]. *)
Definition world1 (digest : string) : World :=
  {| files := [];
     remote := [("http://repo/tool", digest)];
     programs := [("install-tool /S", (0, "installed fine", ""));
                  ("remove-tool /S", (0, "removed", ""));
                  ("check-tool", (0, "check output", "check error"))];
     clock := "2024-06-01T12:00:00" |}.

Definition world1_fetched (digest : string) : World :=
  {| files := [("artifact_cache/pkg_7_1.0", digest)];
     remote := remote (world1 digest);
     programs := programs (world1 digest);
     clock := clock (world1 digest) |}.

(** The entry the server lists for machine 1 in [History.converged_db],
    and the Ledger of that machine after its install succeeded. *)
Definition converged_entry : PlanAssignment :=
  {| job_id := None; action := "install";
     package :=
       {| id := 1; name := "tool"; version := "1.0"; platform := "linux";
          download_url := ""; sha256 := ""; install_cmd := "install-tool";
          uninstall_cmd := "remove-tool"; silent_args := ""; precheck_cmd := "";
          postcheck_cmd := ""; expected_exit_codes := [0] |} |}.

Definition converged_ledger : ClientDB :=
  {| installed_packages :=
       [{| r_id := 1; r_package_id := 1; r_name := "tool"; r_version := "1.0";
           r_status := "installed"; r_last_action := "2024-06-01T12:00:00";
           r_last_rc := 0 |}];
     seq_installed := 1 |}.

Definition state0 (w : World) (l : ClientDB) : State World :=
  {| world := w; ledger := l; log := [] |}.

(** Package 8 has no artifact and a pre-check. *)
Definition pkg_pre : PackageSpec :=
  {| id := 8; name := "svc"; version := "2.0"; platform := "linux";
     download_url := ""; sha256 := ""; install_cmd := "install-svc";
     uninstall_cmd := "remove-svc"; silent_args := ""; precheck_cmd := "pre-check";
     postcheck_cmd := ""; expected_exit_codes := [] |}.

(** A host where the pre-check of package 8 exits with [pre_rc]. *)
Definition world_pre (pre_rc : Z) : World :=
  {| files := []; remote := [];
     programs := [("pre-check", (pre_rc, "disk full", ""));
                  ("install-svc", (0, "service installed", ""))];
     clock := "2024-06-01T12:00:00" |}.

(** A host with an empty cache that reaches no artifact server. *)
Definition world_offline : World :=
  {| files := []; remote := []; programs := [];
     clock := "2024-06-01T12:00:00" |}.

End Scripted.

(** * Properties of the server store *)

Module ServerFacts.
Import Models Server History.

(** ** Lists and rows *)

Lemma filter_map_length_le {A : Type} (P : A -> bool) (f : A -> A) (l : list A) :
  (forall x, In x l -> P (f x) = true -> P x = true) ->
  (List.length (filter P (map f l)) <= List.length (filter P l))%nat.
Proof.
  induction l as [|a l IH]; intros Hf; simpl; [lia|].
  assert (IH' := IH (fun x Hx => Hf x (or_intror Hx))).
  destruct (P (f a)) eqn:Efa.
  - rewrite (Hf a (or_introl eq_refl) Efa). simpl. lia.
  - destruct (P a); simpl; lia.
Qed.

Lemma find_id_unique (l : list Job) (k : Z) (j x : Job) :
  NoDup (map j_id l) ->
  find (fun r => j_id r =? k) l = Some j ->
  In x l -> j_id x = k -> x = j.
Proof.
  induction l as [|a l IH]; simpl; intros Hnd Hfind Hin Hk; [contradiction|].
  inversion Hnd as [|? ? Hnotin Hnd']; subst.
  destruct (Z.eqb_spec (j_id a) (j_id x)) as [Eq|Ne].
  - injection Hfind as <-.
    destruct Hin as [->|Hin]; [reflexivity|].
    exfalso. apply Hnotin. rewrite Eq. now apply in_map.
  - destruct Hin as [->|Hin]; [congruence|]. now apply IH.
Qed.

Lemma find_id_none (l : list Job) (k : Z) (x : Job) :
  find (fun r => j_id r =? k) l = None -> In x l -> j_id x <> k.
Proof.
  intros Hnone Hin Hk.
  apply (find_none _ _ Hnone) in Hin. simpl in Hin.
  rewrite Hk, Z.eqb_refl in Hin. discriminate.
Qed.

Lemma find_some_id (l : list Job) (k : Z) (j : Job) :
  find (fun r => j_id r =? k) l = Some j -> In j l /\ j_id j = k.
Proof.
  intros Hf. apply find_some in Hf. destruct Hf as [Hin Hk].
  split; [assumption|]. now apply Z.eqb_eq.
Qed.

(** ** Job identifiers: primary key and sequence *)

Lemma keys_ok_empty : keys_ok empty_db.
Proof. split; simpl; constructor. Qed.

Lemma keys_ok_set_assignments db l n :
  keys_ok db -> keys_ok (set_assignments db l n).
Proof. intros H; exact H. Qed.

Lemma keys_ok_schedule_job db c p a :
  keys_ok db -> keys_ok (snd (schedule_job db c p a)).
Proof.
  intros [Hnd Hle]. unfold schedule_job, keys_ok. simpl. split.
  - rewrite map_app. simpl.
    apply NoDup_app; [exact Hnd | repeat constructor; intros [] | ].
    intros k Hk [<-|[]].
    apply in_map_iff in Hk. destruct Hk as [j [Hj Hin]].
    rewrite Forall_forall in Hle. specialize (Hle j Hin). lia.
  - apply Forall_app. split.
    + eapply Forall_impl; [|exact Hle]. simpl. intros; lia.
    + repeat constructor. simpl. lia.
Qed.

Lemma map_id_update (k : Z) (f : Job -> Job) (l : list Job) :
  (forall j, j_id (f j) = j_id j) ->
  map j_id (map (fun j => if j_id j =? k then f j else j) l) = map j_id l.
Proof.
  intros Hf. rewrite map_map. apply map_ext. intros j.
  destruct (j_id j =? k); [apply Hf | reflexivity].
Qed.

Lemma keys_ok_update_where_id db k f :
  (forall j, j_id (f j) = j_id j) ->
  keys_ok db -> keys_ok (update_where_id k f db).
Proof.
  intros Hf [Hnd Hle]. unfold update_where_id, keys_ok. simpl. split.
  - now rewrite map_id_update.
  - rewrite Forall_forall in *. intros x Hx.
    apply in_map_iff in Hx. destruct Hx as [j [<- Hin]].
    specialize (Hle j Hin).
    destruct (j_id j =? k); [rewrite Hf|]; exact Hle.
Qed.

Lemma keys_ok_update_job_status db k ph st rc out err now :
  keys_ok db -> keys_ok (update_job_status db k ph st rc out err now).
Proof.
  intros Hk. unfold update_job_status.
  destruct (opt_str_eqb ph (Some "start")).
  - apply keys_ok_update_where_id; [reflexivity | exact Hk].
  - destruct (opt_str_eqb ph (Some "completed")); [|exact Hk].
    apply keys_ok_update_where_id; [reflexivity | exact Hk].
Qed.

Lemma keys_ok_set_assignment db c p d now :
  keys_ok db -> keys_ok (snd (set_assignment db c p d now)).
Proof.
  intros Hk. unfold set_assignment.
  destruct (find_assignment db c p) as [row|].
  - destruct (negb (String.eqb (a_desired_state row) d)); [|exact Hk].
    destruct (actionable d); cbv beta iota zeta; cbn [snd].
    + apply keys_ok_schedule_job. now apply keys_ok_set_assignments.
    + now apply keys_ok_set_assignments.
  - destruct (actionable d); cbv beta iota zeta; cbn [snd].
    + apply keys_ok_schedule_job. now apply keys_ok_set_assignments.
    + now apply keys_ok_set_assignments.
Qed.

Lemma keys_ok_step db op : keys_ok db -> keys_ok (step db op).
Proof.
  destruct op; simpl; intros Hk.
  - now apply keys_ok_set_assignment.
  - now apply keys_ok_schedule_job.
  - now apply keys_ok_update_job_status.
Qed.

(** ** In-flight jobs of a pair *)

Lemma in_flight_jobs_eq db c p :
  in_flight_jobs db c p = filter (pair_in_flight c p) (jobs db).
Proof. reflexivity. Qed.

Lemma in_flight_schedule_job db c p a c' p' :
  in_flight_jobs (snd (schedule_job db c p a)) c' p' =
  in_flight_jobs db c' p'
  ++ (if (c =? c') && (p =? p')
      then [{| j_id := seq_jobs db + 1; j_computer_id := c; j_package_id := p;
               j_action := a; j_status := "Pending"; j_started_at := None;
               j_finished_at := None; j_rc := None; j_stdout_tail := None;
               j_stderr_tail := None; j_attempts := 0 |}]
      else []).
Proof.
  unfold in_flight_jobs, schedule_job. simpl. rewrite filter_app. simpl.
  unfold pair_in_flight at 2. simpl. rewrite andb_true_r.
  now destruct ((c =? c') && (p =? p')).
Qed.

Lemma single_after_schedule db c p a :
  at_most_one_in_flight db -> in_flight_jobs db c p = [] ->
  at_most_one_in_flight (snd (schedule_job db c p a)).
Proof.
  intros Hone Hnil c' p'. rewrite in_flight_schedule_job.
  destruct ((c =? c') && (p =? p')) eqn:E.
  - apply andb_prop in E. destruct E as [Ec Ep].
    apply Z.eqb_eq in Ec, Ep. subst c' p'. rewrite Hnil. simpl. lia.
  - rewrite app_nil_r. apply Hone.
Qed.

Lemma single_after_update db k f :
  at_most_one_in_flight db ->
  (forall c p x, In x (jobs db) -> j_id x = k ->
                 pair_in_flight c p (f x) = true -> pair_in_flight c p x = true) ->
  at_most_one_in_flight (update_where_id k f db).
Proof.
  intros Hone Hf c p. specialize (Hone c p).
  rewrite in_flight_jobs_eq in *. unfold update_where_id. simpl.
  eapply Nat.le_trans; [apply filter_map_length_le | exact Hone].
  intros x Hx. destruct (Z.eqb_spec (j_id x) k); [now apply Hf | trivial].
Qed.

Lemma pair_in_flight_status c p (x y : Job) :
  j_computer_id y = j_computer_id x -> j_package_id y = j_package_id x ->
  non_terminal (j_status x) = true ->
  pair_in_flight c p y = true -> pair_in_flight c p x = true.
Proof.
  unfold pair_in_flight. intros -> -> ->.
  intros Hy. apply andb_prop in Hy. destruct Hy as [-> _]. reflexivity.
Qed.

Lemma single_after_event db k ph st rc out err now :
  keys_ok db -> at_most_one_in_flight db ->
  disciplined db (JobEvent k ph st rc out err now) = true ->
  at_most_one_in_flight (update_job_status db k ph st rc out err now).
Proof.
  intros [Hnd _] Hone Hd. unfold update_job_status.
  simpl in Hd. unfold writes_in_flight, job_in_flight, get_job in Hd.
  assert (Hrow : forall (y x : Job) c p,
             writes_in_flight ph st = true ->
             In x (jobs db) -> j_id x = k ->
             j_computer_id y = j_computer_id x ->
             j_package_id y = j_package_id x ->
             pair_in_flight c p y = true -> pair_in_flight c p x = true).
  { intros y x c p Hw Hx Hk Hc Hp. unfold writes_in_flight in Hw.
    rewrite Hw in Hd.
    destruct (find (fun j => j_id j =? k) (jobs db)) as [j|] eqn:Ef.
    - rewrite (find_id_unique _ _ _ _ Hnd Ef Hx Hk) in *.
      rewrite orb_false_r in Hd.
      now apply pair_in_flight_status.
    - exfalso. exact (find_id_none _ _ _ Ef Hx Hk). }
  destruct (opt_str_eqb ph (Some "start")) eqn:Es.
  - apply single_after_update; [exact Hone|]. intros c p x Hx Hk.
    apply (Hrow (job_started now x) x c p); try reflexivity; try assumption.
    unfold writes_in_flight. now rewrite Es.
  - destruct (opt_str_eqb ph (Some "completed")) eqn:Ec; [|exact Hone].
    apply single_after_update; [exact Hone|]. intros c p x Hx Hk.
    destruct (non_terminal (or_str st "Succeeded")) eqn:En.
    + apply (Hrow (job_completed (or_str st "Succeeded") now rc out err x) x c p);
        try reflexivity; try assumption.
      unfold writes_in_flight. now rewrite Es, Ec, En.
    + unfold pair_in_flight. simpl. rewrite En, andb_false_r. discriminate.
Qed.

Lemma single_after_set_assignment db c p d now :
  at_most_one_in_flight db ->
  disciplined db (SetAssignment c p d now) = true ->
  at_most_one_in_flight (snd (set_assignment db c p d now)).
Proof.
  intros Hone Hd. simpl in Hd. unfold schedules in Hd.
  unfold set_assignment.
  destruct (find_assignment db c p) as [row|].
  - destruct (negb (String.eqb (a_desired_state row) d)); [|exact Hone].
    destruct (actionable d); cbv beta iota zeta; cbn [snd]; [|exact Hone].
    apply single_after_schedule; [exact Hone|].
    simpl in Hd. change (in_flight_jobs (set_assignments _ _ _) c p)
      with (in_flight_jobs db c p).
    now destruct (in_flight_jobs db c p).
  - destruct (actionable d); cbv beta iota zeta; cbn [snd]; [|exact Hone].
    apply single_after_schedule; [exact Hone|].
    simpl in Hd. change (in_flight_jobs (set_assignments _ _ _) c p)
      with (in_flight_jobs db c p).
    now destruct (in_flight_jobs db c p).
Qed.

Lemma single_after_step db op :
  keys_ok db -> at_most_one_in_flight db -> disciplined db op = true ->
  at_most_one_in_flight (step db op).
Proof.
  intros Hk Hone Hd. destruct op; simpl.
  - now apply single_after_set_assignment.
  - simpl in Hd. apply single_after_schedule; [exact Hone|].
    now destruct (in_flight_jobs db computer_id package_id).
  - now apply single_after_event.
Qed.

Lemma single_after_run ops : forall db,
  keys_ok db -> at_most_one_in_flight db -> disciplined_run db ops = true ->
  at_most_one_in_flight (run db ops).
Proof.
  induction ops as [|op ops IH]; intros db Hk Hone Hd; simpl in *.
  - exact Hone.
  - apply andb_prop in Hd. destruct Hd as [Hop Hrest].
    apply IH; [now apply keys_ok_step | now apply single_after_step | exact Hrest].
Qed.

(** ** C1 *)

(** C1, as stated, fails: after [install] then [uninstall] for the same
    pair, two [Pending] jobs exist for it. *)
Lemma c1_two_pending_jobs :
  map j_status (in_flight_jobs (run empty_db flip_flop) 1 1) = ["Pending"; "Pending"]
  /\ ~ at_most_one_in_flight (run empty_db flip_flop).
Proof.
  split; [reflexivity|].
  intros Hone. specialize (Hone 1 1). vm_compute in Hone. lia.
Qed.

(** C1, amended: starting from the empty store, after every sequence of
    set_assignment / schedule_job / job-event operations in which a job
    is scheduled for a pair only while the pair has no job in flight and
    an event writing Pending or InProgress only targets a job in flight,
    every (machine, package) pair has at most one Pending or InProgress
    job. *)
Theorem c1_single_in_flight_when_disciplined (ops : list Op) :
  disciplined_run empty_db ops = true ->
  at_most_one_in_flight (run empty_db ops).
Proof.
  intros Hd. apply single_after_run; [apply keys_ok_empty | | exact Hd].
  intros c p. simpl. lia.
Qed.

Lemma c1_single_in_flight_witness :
  disciplined_run empty_db full_cycle = true
  /\ at_most_one_in_flight (run empty_db full_cycle).
Proof.
  split; [reflexivity|].
  apply (c1_single_in_flight_when_disciplined full_cycle). reflexivity.
Defined.

(** ** C2 *)

Lemma in_plan_rows db cid a p oj :
  In (a, p, oj) (plan_rows db cid) <->
  In a (assignments db) /\ a_computer_id a = cid
  /\ In p (packages db) /\ p_id p = a_package_id a
  /\ match oj with
     | Some j => In j (in_flight_jobs db cid (a_package_id a))
     | None => in_flight_jobs db cid (a_package_id a) = []
     end.
Proof.
  unfold plan_rows. rewrite in_flat_map. split.
  - intros [a' [Ha' Hin]].
    destruct (Z.eqb_spec (a_computer_id a') cid) as [Ec|]; [|contradiction].
    apply in_flat_map in Hin. destruct Hin as [p' [Hp' Hin]].
    destruct (Z.eqb_spec (p_id p') (a_package_id a')) as [Ep|]; [|contradiction].
    rewrite Ec in Hin.
    destruct (in_flight_jobs db cid (a_package_id a')) as [|j0 js] eqn:Ej.
    + destruct Hin as [Heq|[]]. injection Heq as <- <- <-.
      rewrite Ej. auto.
    + apply in_map_iff in Hin. destruct Hin as [j [Heq Hj]].
      injection Heq as <- <- <-. rewrite Ej. auto.
  - intros (Ha & Ec & Hp & Ep & Hj).
    exists a. split; [exact Ha|].
    rewrite Ec, Z.eqb_refl. apply in_flat_map.
    exists p. split; [exact Hp|].
    rewrite Ep, Z.eqb_refl.
    destruct oj as [j|].
    + destruct (in_flight_jobs db cid (a_package_id a)) as [|j0 js];
        [contradiction|].
      apply in_map_iff. exists j. auto.
    + rewrite Hj. now left.
Qed.

(** C2, as stated, fails: once the install job of the pair has
    succeeded, no job of the pair is in flight, and the plan still lists
    the assignment, with a null job id. *)
Lemma c2_converged_assignment_listed :
  in_flight_jobs converged_db 1 1 = []
  /\ map job_id (get_plan_for_computer converged_db 1) = [None]
  /\ map action (get_plan_for_computer converged_db 1) = ["install"].
Proof. split; [reflexivity|]. split; reflexivity. Qed.

(** C2, amended: an entry is in the plan of a machine exactly when it
    is built from an install/uninstall assignment of that machine whose
    package exists, and it carries either the id of an in-flight job of
    the pair or, when the pair has no job in flight, a null job id (the
    assignment is listed, not omitted). *)
Theorem c2_plan_entries (db : Database) (cid : Z) (e : PlanAssignment) :
  In e (get_plan_for_computer db cid) <->
  exists a p,
    In a (assignments db) /\ a_computer_id a = cid
    /\ In p (packages db) /\ p_id p = a_package_id a
    /\ actionable (a_desired_state a) = true
    /\ action e = a_desired_state a
    /\ package e = package_dict a p
    /\ ((exists j, In j (in_flight_jobs db cid (a_package_id a))
                   /\ job_id e = Some (j_id j))
        \/ (in_flight_jobs db cid (a_package_id a) = [] /\ job_id e = None)).
Proof.
  unfold get_plan_for_computer. rewrite in_map_iff. split.
  - intros [[[a p] oj] [<- Hin]].
    apply filter_In in Hin. destruct Hin as [Hrow Hact].
    apply in_plan_rows in Hrow. destruct Hrow as (Ha & Ec & Hp & Ep & Hj).
    exists a, p. repeat (split; [assumption || reflexivity|]).
    destruct oj as [j|]; [left; exists j | right]; auto.
  - intros (a & p & Ha & Ec & Hp & Ep & Hact & Hea & Hep & Hj).
    destruct e as [ej ea ep]. simpl in *. subst ea ep.
    destruct Hj as [[j [Hj ->]] | [Hnil ->]].
    + exists (a, p, Some j). split; [reflexivity|].
      apply filter_In. split; [|exact Hact].
      apply in_plan_rows. auto.
    + exists (a, p, None). split; [reflexivity|].
      apply filter_In. split; [|exact Hact].
      apply in_plan_rows. auto.
Qed.

(** ** C3 *)

Lemma opt_str_eqb_eq (x y : option string) : opt_str_eqb x y = true <-> x = y.
Proof.
  destruct x as [a|], y as [b|]; simpl; split; intros Hxy;
    try discriminate; try reflexivity.
  - apply String.eqb_eq in Hxy. now subst.
  - injection Hxy as ->. apply String.eqb_refl.
Qed.

Lemma terminal_not_in_flight (s : string) :
  terminal s = true -> non_terminal s = false.
Proof.
  unfold terminal, non_terminal. intros Ht.
  apply orb_prop in Ht. destruct Ht as [Ht|Ht];
    apply String.eqb_eq in Ht; subst; reflexivity.
Qed.

Lemma find_map_same {A : Type} (P : A -> bool) (g : A -> A) (l : list A) :
  (forall x, P (g x) = P x) ->
  find P (map g l) = option_map g (find P l).
Proof.
  intros Hg. induction l as [|a l IH]; simpl; [reflexivity|].
  rewrite Hg. destruct (P a); [reflexivity | exact IH].
Qed.

Lemma get_job_update_where_id db k f n :
  (forall j, j_id (f j) = j_id j) ->
  get_job (update_where_id k f db) n =
  option_map (fun j => if j_id j =? k then f j else j) (get_job db n).
Proof.
  intros Hf. unfold get_job, update_where_id. simpl.
  apply find_map_same. intros j.
  destruct (j_id j =? k); [now rewrite Hf | reflexivity].
Qed.

(** C3, as stated, fails: a [start] event posted for a job that has
    already succeeded is acknowledged and puts it back to
    [InProgress]. *)
Lemma c3_start_reopens_succeeded_job :
  option_map j_status (get_job converged_db 1) = Some "Succeeded"
  /\ fst (ServerApi.handle_api converged_db
            (ServerApi.PostJobEvent 1 (Some "tok-1")
               (ServerApi.payload_of_event Agent.start_event)) "" "t4")
     = Ok {| ServerApi.code := 200; ServerApi.body := ServerApi.Detail "ok" |}
  /\ option_map j_status
       (get_job (snd (ServerApi.handle_api converged_db
                        (ServerApi.PostJobEvent 1 (Some "tok-1")
                           (ServerApi.payload_of_event Agent.start_event)) "" "t4")) 1)
     = Some "InProgress".
Proof. split; [reflexivity|]. split; reflexivity. Qed.

(** C3, amended: a job event moves a job whose status is Succeeded or
    Failed to Pending or InProgress in two cases only, both for an event
    addressed to that job: phase "start" (always, to InProgress) and
    phase "completed" carrying the status Pending or InProgress; every
    other event (a completion with a missing, empty or other status, any
    other phase, an event for another job) leaves it out of those two
    states. *)
Theorem c3_terminal_job_after_event (db : Database) (n : Z) (j j' : Job)
    (k : Z) (ph st : option string) (rc : option Z) (out err : option string)
    (now : string) :
  get_job db n = Some j ->
  terminal (j_status j) = true ->
  get_job (update_job_status db k ph st rc out err now) n = Some j' ->
  (non_terminal (j_status j') = true <->
   n = k /\ (ph = Some "start"
             \/ (ph = Some "completed"
                 /\ non_terminal (or_str st "Succeeded") = true))).
Proof.
  intros Hget Hterm Hget'.
  assert (Hn : j_id j = n) by (apply (find_some_id _ _ _ Hget)).
  assert (Hnt := terminal_not_in_flight _ Hterm).
  unfold update_job_status in Hget'.
  destruct (opt_str_eqb ph (Some "start")) eqn:Estart.
  - apply opt_str_eqb_eq in Estart.
    rewrite get_job_update_where_id, Hget in Hget' by reflexivity.
    simpl in Hget'. injection Hget' as <-. rewrite Hn.
    destruct (Z.eqb_spec n k) as [->|Hne]; simpl.
    + split; auto.
    + rewrite Hnt. split; [discriminate | intros [? _]; contradiction].
  - assert (Hns : ph <> Some "start").
    { intros E. apply opt_str_eqb_eq in E. congruence. }
    destruct (opt_str_eqb ph (Some "completed")) eqn:Ecomp.
    + apply opt_str_eqb_eq in Ecomp.
      rewrite get_job_update_where_id, Hget in Hget' by reflexivity.
      simpl in Hget'. injection Hget' as <-. rewrite Hn.
      destruct (Z.eqb_spec n k) as [->|Hne]; simpl.
      * split; [auto | intros [_ [?|[_ ?]]]; [contradiction | assumption]].
      * rewrite Hnt. split; [discriminate | intros [? _]; contradiction].
    + assert (Hnc : ph <> Some "completed").
      { intros E. apply opt_str_eqb_eq in E. congruence. }
      rewrite Hget in Hget'. injection Hget' as <-. rewrite Hnt.
      split; [discriminate | intros [_ [?|[? _]]]; contradiction].
Qed.

Lemma c3_terminal_job_after_event_witness :
  option_map j_status (get_job converged_db 1) = Some "Succeeded"
  /\ terminal "Succeeded" = true
  /\ (non_terminal
        (j_status
           {| j_id := 1; j_computer_id := 1; j_package_id := 1;
              j_action := "install"; j_status := "Failed";
              j_started_at := Some "t2"; j_finished_at := Some "t9";
              j_rc := Some 1; j_stdout_tail := Some "";
              j_stderr_tail := Some "late"; j_attempts := 1 |}) = true
      <-> 1 = 1 /\ (Some "completed" = Some "start"
                    \/ (Some "completed" = Some "completed"
                        /\ non_terminal (or_str (Some "Failed") "Succeeded")
                           = true))).
Proof.
  split; [reflexivity|]. split; [reflexivity|].
  apply (c3_terminal_job_after_event converged_db 1
           {| j_id := 1; j_computer_id := 1; j_package_id := 1;
              j_action := "install"; j_status := "Succeeded";
              j_started_at := Some "t2"; j_finished_at := Some "t3";
              j_rc := Some 0; j_stdout_tail := Some "ok"; j_stderr_tail := Some "";
              j_attempts := 1 |}
           _ 1 (Some "completed") (Some "Failed") (Some 1) (Some "") (Some "late")
           "t9"); reflexivity.
Defined.

End ServerFacts.

(** * Properties of the JSON API *)

Module ApiFacts.
Import Models Server ServerApi History ServerFacts.

(** ** C9 *)

(** C9: an event whose phase is neither "start" nor "completed"
    (a missing phase included) leaves the store, hence every field of
    the job row, as it was; and the events endpoint, for a request that
    passes its token checks, still answers 200 with the store
    unchanged. *)
Theorem c9_other_phase_changes_nothing (db : Database) (job_id : Z)
    (auth : option string) (event : EventPayload) (fresh_token now : string)
    (job : Job) (comp : Computer) :
  ev_phase event <> Some "start" ->
  ev_phase event <> Some "completed" ->
  update_job_status db job_id (ev_phase event) (ev_status event) (ev_rc event)
                    (ev_stdout_tail event) (ev_stderr_tail event) now = db
  /\ (token_missing auth = false ->
      get_job db job_id = Some job ->
      get_computer db (j_computer_id job) = Some comp ->
      c_token comp = auth ->
      c_token_revoked comp = 0 ->
      handle_api db (PostJobEvent job_id auth event) fresh_token now
      = (Ok {| code := 200; body := Detail "ok" |}, db)).
Proof.
  intros Hns Hnc.
  assert (Hup : update_job_status db job_id (ev_phase event) (ev_status event)
                  (ev_rc event) (ev_stdout_tail event) (ev_stderr_tail event) now
                = db).
  { unfold update_job_status.
    destruct (opt_str_eqb (ev_phase event) (Some "start")) eqn:E1.
    { apply opt_str_eqb_eq in E1. contradiction. }
    destruct (opt_str_eqb (ev_phase event) (Some "completed")) eqn:E2.
    { apply opt_str_eqb_eq in E2. contradiction. }
    reflexivity. }
  split; [exact Hup|].
  intros Hauth Hjob Hcomp Htok Hrev. simpl. unfold handle_job_event.
  rewrite Hauth, Hjob, Hcomp, Hrev, Hup.
  assert (Heq : opt_str_eqb (c_token comp) auth = true)
    by (now apply opt_str_eqb_eq).
  rewrite Heq. reflexivity.
Qed.

Lemma c9_other_phase_witness :
  update_job_status converged_db 1 (Some "progress") None None None None "t5"
  = converged_db
  /\ handle_api converged_db
       (PostJobEvent 1 (Some "tok-1")
          {| ev_phase := Some "progress"; ev_status := None; ev_rc := None;
             ev_stdout_tail := None; ev_stderr_tail := None |}) "" "t5"
     = (Ok {| code := 200; body := Detail "ok" |}, converged_db).
Proof.
  destruct (c9_other_phase_changes_nothing converged_db 1 (Some "tok-1")
              {| ev_phase := Some "progress"; ev_status := None; ev_rc := None;
                 ev_stdout_tail := None; ev_stderr_tail := None |} "" "t5"
              {| j_id := 1; j_computer_id := 1; j_package_id := 1;
                 j_action := "install"; j_status := "Succeeded";
                 j_started_at := Some "t2"; j_finished_at := Some "t3";
                 j_rc := Some 0; j_stdout_tail := Some "ok";
                 j_stderr_tail := Some ""; j_attempts := 1 |}
              {| c_id := 1; c_hostname := "host1"; c_os := Some "linux";
                 c_arch := Some "x86_64"; c_tags := Some "[]";
                 c_last_check_in := Some "t0"; c_client_version := Some "0.9";
                 c_token := Some "tok-1"; c_token_revoked := 0 |})
    as [Hsame Hack]; [discriminate | discriminate |].
  split; [exact Hsame|].
  apply Hack; reflexivity.
Defined.

(** ** C7 *)

Lemma find_hostname_update (hostname : string) (g : Computer -> Computer)
    (l : list Computer) :
  (forall c, c_hostname (g c) = c_hostname c) ->
  find (fun c => String.eqb (c_hostname c) hostname) (map g l)
  = option_map g (find (fun c => String.eqb (c_hostname c) hostname) l).
Proof.
  intros Hg. apply find_map_same. intros c. now rewrite Hg.
Qed.

Lemma computers_after_reenroll db cid tok os_name arch cv now :
  computers
    (update_last_check_in
       (set_computers db
          (map (fun c => if c_id c =? cid
                         then with_token_and_meta tok os_name arch cv c else c)
               (computers db))
          (seq_computers db))
       cid now)
  = map (fun c => if c_id c =? cid
                  then with_last_check_in now
                         (with_token_and_meta tok os_name arch cv c)
                  else c)
        (computers db).
Proof.
  simpl. rewrite map_map. apply map_ext. intros c.
  destruct (c_id c =? cid) eqn:E; simpl; rewrite E; reflexivity.
Qed.

Lemma map_id_reenroll {A : Type} (proj : Computer -> A) (g : Computer -> Computer)
    (cid : Z) (l : list Computer) :
  (forall c, proj (g c) = proj c) ->
  map proj (map (fun c => if c_id c =? cid then g c else c) l) = map proj l.
Proof.
  intros Hg. rewrite map_map. apply map_ext. intros c.
  destruct (c_id c =? cid); [apply Hg | reflexivity].
Qed.

(** C7: when the (stripped, non-empty) hostname of an Enroll request
    names an existing machine and the generated token is held by no
    other machine, the request answers 200 with that machine's id and
    the new token; the computers table keeps its rows (same ids, same
    hostnames, no new record); the machine's row now holds the new
    token, the request's OS and architecture, and the request's client
    version when it carries one (the stored one is kept otherwise). *)
Theorem c7_reenroll_rotates_token (db : Database) (payload : EnrollPayload)
    (fresh_token now : string) (comp : Computer) :
  let hostname := strip (or_str (en_hostname payload) "") in
  truthy hostname = true ->
  get_computer_by_hostname db hostname = Some comp ->
  token_taken db (c_id comp) fresh_token = false ->
  exists db',
    handle_api db (Enroll payload) fresh_token now
    = (Ok {| code := 200; body := Enrolled (c_id comp) fresh_token |}, db')
    /\ map c_id (computers db') = map c_id (computers db)
    /\ map c_hostname (computers db') = map c_hostname (computers db)
    /\ seq_computers db' = seq_computers db
    /\ get_computer_by_hostname db' hostname
       = Some (reenrolled payload fresh_token now comp)
    /\ c_token (reenrolled payload fresh_token now comp) = Some fresh_token
    /\ c_os (reenrolled payload fresh_token now comp)
       = Some (strip (or_str (en_os payload) ""))
    /\ c_arch (reenrolled payload fresh_token now comp)
       = Some (strip (or_str (en_arch payload) ""))
    /\ c_client_version (reenrolled payload fresh_token now comp)
       = coalesce (en_client_version payload) (c_client_version comp).
Proof.
  intros hostname Hname Hcomp Hfree.
  eexists. split.
  - simpl. unfold handle_enroll. fold hostname. rewrite Hname, Hcomp. simpl.
    unfold set_token_and_meta. rewrite Hfree, andb_false_r. reflexivity.
  - fold (reenrolled payload fresh_token now).
    rewrite computers_after_reenroll.
    split; [apply map_id_reenroll; reflexivity|].
    split; [apply map_id_reenroll; reflexivity|].
    split; [reflexivity|].
    split; [|repeat split].
    unfold get_computer_by_hostname.
    rewrite computers_after_reenroll, find_hostname_update.
    + unfold get_computer_by_hostname in Hcomp. rewrite Hcomp. simpl.
      now rewrite Z.eqb_refl.
    + intros c. now destruct (c_id c =? c_id comp).
Qed.

Lemma c7_reenroll_witness :
  truthy "host1" = true
  /\ exists db',
      handle_api enrolled_db
        (Enroll {| en_hostname := Some " host1 "; en_os := Some "windows";
                   en_arch := None; en_client_version := None |})
        "tok-2" "t8"
      = (Ok {| code := 200; body := Enrolled 1 "tok-2" |}, db')
      /\ map c_id (computers db') = [1]
      /\ map c_token (computers db') = [Some "tok-2"]
      /\ map c_os (computers db') = [Some "windows"]
      /\ map c_arch (computers db') = [Some ""]
      /\ map c_client_version (computers db') = [Some "0.9"].
Proof.
  split; [reflexivity|].
  destruct (c7_reenroll_rotates_token enrolled_db
              {| en_hostname := Some " host1 "; en_os := Some "windows";
                 en_arch := None; en_client_version := None |}
              "tok-2" "t8"
              {| c_id := 1; c_hostname := "host1"; c_os := Some "linux";
                 c_arch := Some "x86_64"; c_tags := Some "[]";
                 c_last_check_in := Some "t0"; c_client_version := Some "0.9";
                 c_token := Some "tok-1"; c_token_revoked := 0 |}
              eq_refl eq_refl eq_refl) as [db' [Hresp _]].
  exists db'. split; [exact Hresp|].
  injection Hresp as <-. repeat split.
Defined.

End ApiFacts.

(** * Properties of the agent *)

Module AgentFacts.
Import Models Agent Scripted.

(** ** C10: the Ledger *)

Lemma filter_nil_of_find_none {A : Type} (P : A -> bool) (l : list A) :
  find P l = None -> filter P l = [].
Proof.
  induction l as [|a l IH]; simpl; [reflexivity|].
  destruct (P a); [discriminate | exact IH].
Qed.

Lemma get_installed_updated (db : ClientDB) (package_id : Z)
    (g : InstalledRow -> InstalledRow) :
  (forall r, r_package_id (g r) = r_package_id r) ->
  find (fun r => r_package_id r =? package_id)
       (map (fun r => if r_package_id r =? package_id then g r else r)
            (installed_packages db))
  = option_map g (get_installed db package_id).
Proof.
  intros Hg. unfold get_installed.
  induction (installed_packages db) as [|a l IH]; simpl; [reflexivity|].
  destruct (r_package_id a =? package_id) eqn:E.
  - now rewrite Hg, E.
  - rewrite E. exact IH.
Qed.

(** C10: update_installed keeps at most one row per package id; when
    the package has a row, the table keeps its rows (same row ids, same
    package ids) and that row takes the new version, status, time and
    result code; when it has none, one row is appended. *)
Theorem c10_update_installed_single_rows (db : ClientDB) (package_id : Z)
    (name version status : string) (rc : Z) (now : string) :
  single_rows db ->
  let db' := update_installed db package_id name version status rc now in
  single_rows db'
  /\ (forall r, get_installed db package_id = Some r ->
        map r_id (installed_packages db') = map r_id (installed_packages db)
        /\ map r_package_id (installed_packages db')
           = map r_package_id (installed_packages db)
        /\ get_installed db' package_id
           = Some (with_installed version status now rc r))
  /\ (get_installed db package_id = None ->
        installed_packages db' =
        installed_packages db ++
        [{| r_id := seq_installed db + 1; r_package_id := package_id;
            r_name := name; r_version := version; r_status := status;
            r_last_action := now; r_last_rc := rc |}]).
Proof.
  intros Hone db'. subst db'. unfold update_installed.
  destruct (get_installed db package_id) as [r0|] eqn:Eget.
  - split; [|split; [|discriminate]].
    + intros q. unfold single_rows in Hone. specialize (Hone q). simpl.
      eapply Nat.le_trans; [apply ServerFacts.filter_map_length_le | exact Hone].
      intros x _. now destruct (r_package_id x =? package_id).
    + intros r Hr. injection Hr as <-. simpl. repeat rewrite map_map.
      split; [apply map_ext; intros x;
              now destruct (r_package_id x =? package_id)|].
      split; [apply map_ext; intros x;
              now destruct (r_package_id x =? package_id)|].
      unfold get_installed at 1. simpl.
      rewrite get_installed_updated by reflexivity. now rewrite Eget.
  - split; [|split; [discriminate | reflexivity]].
    intros q. specialize (Hone q). simpl. rewrite filter_app, length_app. simpl.
    destruct (Z.eqb_spec package_id q) as [<-|Hne]; simpl.
    + unfold get_installed in Eget.
      rewrite (filter_nil_of_find_none _ _ Eget). simpl. lia.
    + rewrite Nat.add_0_r. exact Hone.
Qed.

Lemma c10_update_installed_witness :
  single_rows (Scripted.ledger0 "installed")
  /\ single_rows (update_installed (Scripted.ledger0 "installed") 7 "tool" "2.0"
                                   "installed" 0 "t1")
  /\ single_rows (update_installed (Scripted.ledger0 "installed") 8 "other" "1.0"
                                   "installed" 0 "t1").
Proof.
  assert (H0 : single_rows (Scripted.ledger0 "installed")).
  { intros q.
    change (List.length (if Z.eqb 7 q then [Scripted.row0 "installed"] else [])
            <= 1)%nat.
    destruct (Z.eqb 7 q); simpl; lia. }
  split; [exact H0|]. split.
  - apply (c10_update_installed_single_rows (Scripted.ledger0 "installed") 7
             "tool" "2.0" "installed" 0 "t1" H0).
  - apply (c10_update_installed_single_rows (Scripted.ledger0 "installed") 8
             "other" "1.0" "installed" 0 "t1" H0).
Defined.

(** ** Running the agent *)

Section Run.
Context {W : Type} `{Host W}.

Lemma bind_ok {A B} (m : M W A) (k : A -> M W B) st a st' :
  m st = (Ok a, st') -> bind m k st = k a st'.
Proof. unfold bind. now intros ->. Qed.

Lemma bind_raise {A B} (m : M W A) (k : A -> M W B) st e st' :
  m st = (Raise e, st') -> bind m k st = (Raise e, st').
Proof. unfold bind. now intros ->. Qed.

Lemma try_ok {A} (m : M W A) handler st a st' :
  m st = (Ok a, st') -> try_except m handler st = (Ok a, st').
Proof. unfold try_except. now intros ->. Qed.

Lemma try_raise {A} (m : M W A) handler st e st' :
  m st = (Raise e, st') -> try_except m handler st = handler e st'.
Proof. unfold try_except. now intros ->. Qed.

Lemma logged_nil (st : State W) : logged st [] = st.
Proof. destruct st. unfold logged. simpl. now rewrite app_nil_r. Qed.

Lemma report_run cfg job event (st : State W) :
  report cfg job event st = (Ok tt, logged st (posted cfg job event)).
Proof.
  unfold report, post_job_event, posted.
  destruct job as [j|]; [destruct (enrolled cfg)|]; simpl;
    try reflexivity; unfold ret; now rewrite logged_nil.
Qed.

Lemma posted_no_subprocess cfg job event command :
  ~ In (Subprocess command) (posted cfg job event).
Proof.
  unfold posted. destruct job as [j|]; [destruct (enrolled cfg)|]; simpl;
    intros Hin; try contradiction.
  destruct Hin as [Hin|[]]. discriminate.
Qed.

(** *** The idempotency gate *)

Lemma short_circuits_iff (db : ClientDB) (a : PlanAssignment) :
  short_circuits db a = true <-> ledger_matches_target db a.
Proof.
  unfold short_circuits, ledger_matches_target, already_installed,
    already_uninstalled.
  destruct (String.eqb_spec (action a) "install") as [Ei|Ni];
    destruct (String.eqb_spec (action a) "uninstall") as [Eu|Nu];
    try (rewrite Ei in Eu; discriminate); simpl.
  - rewrite orb_false_r.
    destruct (get_installed db (id (package a))) as [r|].
    + rewrite andb_true_iff, !String.eqb_eq. split.
      * intros [Hv Hs]. left. split; [exact Ei|]. now exists r.
      * intros [[_ [r' [Hr [Hv Hs]]]] | [Hu _]]; [|congruence].
        injection Hr as <-. auto.
    + split; [discriminate|].
      intros [[_ [r' [Hr _]]] | [Hu _]]; congruence.
  - destruct (get_installed db (id (package a))) as [r|].
    + rewrite negb_true_iff, String.eqb_neq. split.
      * intros Hs. right. split; [exact Eu|]. right. now exists r.
      * intros [[Hi _] | [_ [Hn | [r' [Hr Hs]]]]]; try congruence.
    + split; [|reflexivity]. intros _. right. auto.
  - split; [discriminate|]. intros [[Hi _] | [Hu _]]; contradiction.
Qed.

Lemma process_assignment_gate cfg (a : PlanAssignment) (st : State W) :
  process_assignment cfg a st =
  if short_circuits (ledger st) a
  then report cfg (job_id a)
              (completed_event "Succeeded" 0 (gate_message a) "") st
  else execute cfg a st.
Proof.
  unfold process_assignment, short_circuits, gate_message, bind, read_ledger.
  destruct (String.eqb (action a) "install") eqn:Ei.
  - assert (Eu : String.eqb (action a) "uninstall" = false).
    { apply String.eqb_eq in Ei. now rewrite Ei. }
    rewrite Eu. cbn [andb orb]. rewrite orb_false_r.
    now destruct (already_installed _ _).
  - cbn [andb orb].
    destruct (String.eqb (action a) "uninstall"); cbn [andb]; [|reflexivity].
    now destruct (already_uninstalled _).
Qed.

(** C4, amended: when the Ledger already shows the target state of a
    plan entry (install: the package at the target version with status
    installed; uninstall: no row, or a row whose status is not
    installed), the agent runs no subprocess, downloads nothing,
    leaves host and Ledger as they are, and its only effect is the
    completed event (Succeeded, result code 0), which it posts when
    the entry carries a job id; for an entry whose job id is null it
    reports nothing. *)
Theorem c4_gate_short_circuits cfg (a : PlanAssignment) (st : State W) :
  ledger_matches_target (ledger st) a ->
  process_assignment cfg a st =
  (Ok tt,
   {| world := world st; ledger := ledger st;
      log := log st ++
             posted cfg (job_id a)
               (completed_event "Succeeded" 0 (gate_message a) "") |})
  /\ (job_id a = None ->
      process_assignment cfg a st = (Ok tt, st)).
Proof.
  intros Hm. apply short_circuits_iff in Hm.
  rewrite process_assignment_gate, Hm, report_run.
  split; [reflexivity|].
  intros ->. simpl. now rewrite logged_nil.
Qed.

(** *** The Ledger is out of the installer's reach *)

Lemma keeps_ret {A} (a : A) : keeps_ledger (W := W) (ret a).
Proof. intros st r st' E. unfold ret in E. now injection E as _ <-. Qed.

Lemma keeps_bind {A B} (m : M W A) (k : A -> M W B) :
  keeps_ledger m -> (forall a, keeps_ledger (W := W) (k a)) ->
  keeps_ledger (W := W) (bind m k).
Proof.
  intros Hm Hk st r st' E. unfold bind in E.
  destruct (m st) as [[a|e] st1] eqn:Em.
  - rewrite (Hk a _ _ _ E). exact (Hm _ _ _ Em).
  - injection E as _ <-. exact (Hm _ _ _ Em).
Qed.

Lemma keeps_try {A} (m : M W A) (handler : string -> M W A) :
  keeps_ledger m -> (forall e, keeps_ledger (W := W) (handler e)) ->
  keeps_ledger (W := W) (try_except m handler).
Proof.
  intros Hm Hh st r st' E. unfold try_except in E.
  destruct (m st) as [[a|e] st1] eqn:Em.
  - injection E as _ <-. exact (Hm _ _ _ Em).
  - rewrite (Hh e _ _ _ E). exact (Hm _ _ _ Em).
Qed.

Lemma keeps_emit (e : Effect) : keeps_ledger (W := W) (emit e).
Proof. intros st r st' E. unfold emit in E. now injection E as _ <-. Qed.

Lemma keeps_on_world {A} (f : W -> result A * W) : keeps_ledger (W := W) (on_world f).
Proof.
  intros st r st' E. unfold on_world in E.
  destruct (f (world st)). now injection E as _ <-.
Qed.

Lemma keeps_read_world {A} (f : W -> A) : keeps_ledger (W := W) (read_world f).
Proof. intros st r st' E. unfold read_world in E. now injection E as _ <-. Qed.

Lemma keeps_of_result {A} (r : result A) : keeps_ledger (W := W) (of_result r).
Proof. intros st r' st' E. unfold of_result in E. now injection E as _ <-. Qed.

Lemma keeps_pure {A} (f : State W -> result A) :
  keeps_ledger (W := W) (fun st => (f st, st)).
Proof. intros st r st' E. now injection E as _ <-. Qed.

Ltac keeps :=
  repeat first
    [ apply keeps_ret | apply keeps_emit | apply keeps_on_world
    | apply keeps_read_world | apply keeps_of_result
    | apply (keeps_pure (fun st => file_sha256 _ (world st)))
    | apply keeps_bind; [|intros ?] | apply keeps_try; [|intros ?]
    | match goal with
      | |- keeps_ledger (if ?b then _ else _) => destruct b
      | |- keeps_ledger (match ?x with Some _ => _ | None => _ end) => destruct x
      | |- keeps_ledger (let '(_, _) := ?x in _) => destruct x
      end ].

Lemma keeps_run_subprocess command : keeps_ledger (W := W) (run_subprocess command).
Proof. unfold run_subprocess. keeps. Qed.

Lemma keeps_download_file url dest : keeps_ledger (W := W) (download_file url dest).
Proof. unfold download_file. keeps. Qed.

Lemma keeps_fetch_artifact pkg : keeps_ledger (W := W) (fetch_artifact pkg).
Proof.
  unfold fetch_artifact, verify_sha256. keeps; apply keeps_download_file.
Qed.

Lemma keeps_run_precheck pkg : keeps_ledger (W := W) (run_precheck pkg).
Proof. unfold run_precheck. keeps; apply keeps_run_subprocess. Qed.

Lemma keeps_perform_action a act : keeps_ledger (W := W) (perform_action a act).
Proof.
  unfold perform_action. keeps;
    first [apply keeps_fetch_artifact | apply keeps_run_precheck
          | apply keeps_run_subprocess].
Qed.

Lemma keeps_guarded_action a : keeps_ledger (W := W) (guarded_action a).
Proof.
  unfold guarded_action.
  apply keeps_try; [apply keeps_perform_action | intros e; apply keeps_ret].
Qed.

(** *** After the pipeline *)

Lemma guarded_action_total a (st : State W) :
  exists r st', guarded_action a st = (Ok r, st').
Proof.
  unfold guarded_action, try_except.
  destruct (perform_action a (action a) st) as [[r|e] st'];
    do 2 eexists; reflexivity.
Qed.

Lemma record_outcome_run a code (st : State W) :
  record_outcome a (classify (package a) code) code st =
  (Ok tt, {| world := world st; ledger := ledger_after a code st;
             log := log st |}).
Proof.
  unfold record_outcome, ledger_after.
  destruct (String.eqb (action a) "install"
            && String.eqb (classify (package a) code) "Succeeded");
    [reflexivity|].
  destruct (String.eqb (action a) "uninstall"
            && String.eqb (classify (package a) code) "Succeeded");
    [reflexivity|].
  destruct st; reflexivity.
Qed.

Lemma execute_run cfg a (st st1 : State W) code out err :
  guarded_action a (started cfg a st) = (Ok (code, out, err), st1) ->
  execute cfg a st =
  (Ok tt,
   {| world := world st1; ledger := ledger_after a code st1;
      log := log st1 ++
             posted cfg (job_id a)
               (completed_event (classify (package a) code) code out err) |}).
Proof.
  intros Hrun. unfold execute.
  rewrite (bind_ok _ _ _ _ _ (report_run cfg (job_id a) start_event st)).
  fold (started cfg a st).
  rewrite (bind_ok _ _ _ _ _ Hrun).
  rewrite (bind_ok _ _ _ _ _ (record_outcome_run a code st1)).
  now rewrite report_run.
Qed.

Lemma classify_expected pkg code :
  In code (expected_exit_codes pkg) -> classify pkg code = "Succeeded".
Proof.
  intros Hin. unfold classify.
  destruct (expected_exit_codes pkg) as [|c cs]; [contradiction|].
  assert (E : existsb (Z.eqb code) (or_list (c :: cs) [0]) = true).
  { apply existsb_exists. exists code. split; [exact Hin | apply Z.eqb_refl]. }
  now rewrite E.
Qed.

Lemma classify_unexpected pkg code :
  code <> 0 -> ~ In code (expected_exit_codes pkg) -> classify pkg code = "Failed".
Proof.
  intros Hnz Hout. unfold classify.
  assert (E : existsb (Z.eqb code) (or_list (expected_exit_codes pkg) [0]) = false).
  { apply not_true_is_false. intros Hex.
    apply existsb_exists in Hex. destruct Hex as [x [Hx Ex]].
    apply Z.eqb_eq in Ex. subst x.
    destruct (expected_exit_codes pkg) as [|c cs]; simpl in Hx.
    - destruct Hx as [Hx|[]]. congruence.
    - now apply Hout. }
  now rewrite E.
Qed.

Lemma ledger_after_failed a code (st : State W) :
  classify (package a) code = "Failed" -> ledger_after a code st = ledger st.
Proof.
  intros Hf. unfold ledger_after. rewrite Hf. simpl.
  now rewrite !andb_false_r.
Qed.

(** *** The artifact block *)

Lemma on_world_log {A} (f : W -> result A * W) (st st' : State W) r :
  on_world f st = (r, st') -> log st' = log st.
Proof.
  unfold on_world. destruct (f (world st)). now intros [= _ <-].
Qed.

Lemma download_file_log url dest (st st' : State W) r :
  download_file url dest st = (r, st') ->
  log st' = log st ++ [Download url dest].
Proof.
  unfold download_file, bind, emit. intros E.
  destruct (on_world _ _) as [[[]|e] st1] eqn:Eo;
    apply on_world_log in Eo; simpl in Eo; now injection E as _ <-.
Qed.

Lemma artifact_retrieved_log pkg (st st' : State W) :
  artifact_retrieved pkg st st' ->
  log st' = log st ++
            (if path_exists (artifact_path pkg) (world st) then []
             else [Download (download_url pkg) (artifact_path pkg)]).
Proof.
  intros [_ [[-> ->] | [-> Hdl]]].
  - now rewrite app_nil_r.
  - exact (download_file_log _ _ _ _ _ Hdl).
Qed.

Lemma fetch_artifact_mismatch pkg (st st' : State W) digest :
  artifact_retrieved pkg st st' ->
  truthy (sha256 pkg) = true ->
  file_sha256 (artifact_path pkg) (world st') = Ok digest ->
  lower digest <> lower (sha256 pkg) ->
  fetch_artifact pkg st = (Ok (Some (1, "", "Checksum mismatch")), st').
Proof.
  intros [Hurl Hget] Hsha Hdigest Hne.
  apply String.eqb_neq in Hne.
  unfold fetch_artifact, verify_sha256. rewrite Hurl, Hsha.
  unfold bind at 1, try_except, bind at 1, read_world.
  destruct Hget as [[Hex ->] | [Hex Hdl]]; rewrite Hex; cbn [negb].
  - unfold bind, ret. rewrite Hdigest, Hne. reflexivity.
  - unfold bind at 1. rewrite Hdl.
    unfold bind, ret. rewrite Hdigest, Hne. reflexivity.
Qed.

Lemma fetch_artifact_download_failed pkg (st st' : State W) e :
  truthy (download_url pkg) = true ->
  path_exists (artifact_path pkg) (world st) = false ->
  download_file (download_url pkg) (artifact_path pkg) st = (Raise e, st') ->
  fetch_artifact pkg st
  = (Ok (Some (1, "", ("Download failed: " ++ e)%string)), st').
Proof.
  intros Hurl Hex Hdl. unfold fetch_artifact. rewrite Hurl.
  unfold bind at 1, try_except, bind at 1, read_world. rewrite Hex. cbn [negb].
  unfold bind at 1. rewrite Hdl. reflexivity.
Qed.

Lemma perform_action_early a act (st st1 st2 : State W) r :
  on_world (mkdir cache_dir) st = (Ok tt, st1) ->
  fetch_artifact (package a) st1 = (Ok (Some r), st2) ->
  perform_action a act st = (Ok r, st2).
Proof.
  intros Hmk Hfetch. unfold perform_action.
  rewrite (bind_ok _ _ _ _ _ Hmk), (bind_ok _ _ _ _ _ Hfetch). reflexivity.
Qed.

Lemma perform_action_no_command a (st st1 st2 st3 : State W) :
  on_world (mkdir cache_dir) st = (Ok tt, st1) ->
  fetch_artifact (package a) st1 = (Ok None, st2) ->
  run_precheck (package a) st2 = (Ok None, st3) ->
  truthy (base_cmd (package a) (action a)) = false ->
  perform_action a (action a) st = (Ok (1, "", "No command defined"), st3).
Proof.
  intros Hmk Hfetch Hpre Hcmd. unfold perform_action.
  rewrite (bind_ok _ _ _ _ _ Hmk), (bind_ok _ _ _ _ _ Hfetch),
    (bind_ok _ _ _ _ _ Hpre).
  rewrite Hcmd. reflexivity.
Qed.

Lemma internal_failure_code_1 a (st st' : State W) out err :
  internal_failure a st out err st' ->
  guarded_action a st = (Ok (1, out, err), st').
Proof.
  intros Hf. unfold guarded_action.
  destruct Hf as [st1 st2 e Hmk Hurl Hex Hdl
                 | st1 st2 digest Hmk Hget Hsha Hdig Hne
                 | st1 st2 st3 Hmk Hfetch Hpre Hcmd
                 | e st1 Hraise].
  - apply try_ok. eapply perform_action_early; [exact Hmk|].
    now apply fetch_artifact_download_failed.
  - apply try_ok. eapply perform_action_early; [exact Hmk|].
    now apply fetch_artifact_mismatch with (digest := digest).
  - apply try_ok. now apply perform_action_no_command with st1 st2.
  - now rewrite (try_raise _ _ _ _ _ Hraise).
Qed.

(** *** C5 *)

(** C5, amended: when the artifact of a plan entry is in the cache
    (found there or just downloaded) and its SHA-256 digest differs
    from the configured checksum, the pipeline returns result code 1
    with the error tail "Checksum mismatch" without running any
    pre-check, main or post-check command: the only effects are the
    start event and, if it took place, the download, so no subprocess
    is run.  When 1 is not
    among the package's expected exit codes, the completion is Failed
    with result code 1 and that error tail, posted when the entry
    carries a job id, and the Ledger is left unchanged. *)
Theorem c5_checksum_mismatch_fails cfg (a : PlanAssignment)
    (st st1 st2 : State W) (digest : string) :
  short_circuits (ledger st) a = false ->
  on_world (mkdir cache_dir) (started cfg a st) = (Ok tt, st1) ->
  artifact_retrieved (package a) st1 st2 ->
  truthy (sha256 (package a)) = true ->
  file_sha256 (artifact_path (package a)) (world st2) = Ok digest ->
  lower digest <> lower (sha256 (package a)) ->
  perform_action a (action a) (started cfg a st)
  = (Ok (1, "", "Checksum mismatch"), st2)
  /\ log st2
     = log st ++ posted cfg (job_id a) start_event
       ++ (if path_exists (artifact_path (package a)) (world st1) then []
           else [Download (download_url (package a))
                          (artifact_path (package a))])
  /\ (forall command,
        In (Subprocess command) (log st2) -> In (Subprocess command) (log st))
  /\ (~ In 1 (expected_exit_codes (package a)) ->
      process_assignment cfg a st
      = (Ok tt,
         {| world := world st2; ledger := ledger st;
            log := log st2 ++
                   posted cfg (job_id a)
                     (completed_event "Failed" 1 "" "Checksum mismatch") |})).
Proof.
  intros Hgate Hmk Hget Hsha Hdig Hne.
  assert (Hfail : internal_failure a (started cfg a st) "" "Checksum mismatch" st2)
    by (now apply checksum_failure with st1 digest).
  assert (Hrun := internal_failure_code_1 _ _ _ _ _ Hfail).
  assert (Hlog : log st2
                 = log st ++ posted cfg (job_id a) start_event
                   ++ (if path_exists (artifact_path (package a)) (world st1)
                       then []
                       else [Download (download_url (package a))
                                      (artifact_path (package a))])).
  { rewrite (artifact_retrieved_log _ _ _ Hget), (on_world_log _ _ _ _ Hmk).
    unfold started, logged. simpl. now rewrite app_assoc. }
  split; [|split; [exact Hlog | split]].
  - eapply perform_action_early; [exact Hmk|].
    now apply fetch_artifact_mismatch with (digest := digest).
  - intros command Hin. rewrite Hlog in Hin.
    apply in_app_or in Hin. destruct Hin as [Hin|Hin]; [exact Hin|].
    apply in_app_or in Hin. destruct Hin as [Hin|Hin].
    + now apply posted_no_subprocess in Hin.
    + destruct (path_exists _ _); [contradiction|].
      destruct Hin as [Hin|[]]. discriminate.
  - intros Hout.
    assert (Hcl : classify (package a) 1 = "Failed")
      by (apply classify_unexpected; [discriminate | exact Hout]).
    rewrite process_assignment_gate, Hgate, (execute_run _ _ _ _ _ _ _ Hrun).
    rewrite Hcl, (ledger_after_failed _ _ _ Hcl).
    rewrite (keeps_guarded_action _ _ _ _ Hrun). reflexivity.
Qed.

(** *** C6 *)

Lemma main_command_ran_ledger a (st st' : State W) r :
  main_command_ran a st r st' -> ledger st' = ledger st.
Proof.
  intros (st1 & st2 & st3 & cmd & Hmk & Hfetch & Hpre & _ & _ & Hrun).
  rewrite (keeps_run_subprocess _ _ _ _ Hrun),
    (keeps_run_precheck _ _ _ _ Hpre), (keeps_fetch_artifact _ _ _ _ Hfetch).
  exact (keeps_on_world _ _ _ _ Hmk).
Qed.

Lemma perform_action_postcheck a (st st1 st2 : State W) r code2 out2 err2 :
  main_command_ran a st r st1 ->
  truthy (postcheck_cmd (package a)) = true ->
  run_subprocess (postcheck_cmd (package a)) st1 = (Ok (code2, out2, err2), st2) ->
  code2 <> 0 ->
  perform_action a (action a) st = (Ok (code2, out2, err2), st2).
Proof.
  intros (s1 & s2 & s3 & cmd & Hmk & Hfetch & Hpre & Hcmd & Hfmt & Hrun)
         Hpost Hcheck Hnz.
  unfold perform_action.
  rewrite (bind_ok _ _ _ _ _ Hmk), (bind_ok _ _ _ _ _ Hfetch),
    (bind_ok _ _ _ _ _ Hpre).
  cbv zeta. rewrite Hcmd. cbn [negb]. rewrite Hfmt.
  unfold bind at 1, of_result.
  rewrite (bind_ok _ _ _ _ _ Hrun), Hpost, (bind_ok _ _ _ _ _ Hcheck).
  cbn [fst]. apply Z.eqb_neq in Hnz. now rewrite Hnz.
Qed.

(** C6, amended: when the main command of an entry ran and the
    package has a post-check command that exits non-zero, the
    post-check's exit code and output tails are what the pipeline
    returns and what the completion carries (posted when the entry has
    a job id).  The completion is Failed, and the Ledger unchanged,
    when that code is not among the package's expected exit codes --
    so always under the default codes -- and Succeeded when the code
    is listed there. *)
Theorem c6_postcheck_result_reported cfg (a : PlanAssignment)
    (st st1 st2 : State W) (r : Z * string * string)
    (code2 : Z) (out2 err2 : string) :
  short_circuits (ledger st) a = false ->
  main_command_ran a (started cfg a st) r st1 ->
  truthy (postcheck_cmd (package a)) = true ->
  run_subprocess (postcheck_cmd (package a)) st1 = (Ok (code2, out2, err2), st2) ->
  code2 <> 0 ->
  perform_action a (action a) (started cfg a st) = (Ok (code2, out2, err2), st2)
  /\ process_assignment cfg a st
     = (Ok tt,
        {| world := world st2; ledger := ledger_after a code2 st2;
           log := log st2 ++
                  posted cfg (job_id a)
                    (completed_event (classify (package a) code2)
                                     code2 out2 err2) |})
  /\ (~ In code2 (expected_exit_codes (package a)) ->
      classify (package a) code2 = "Failed"
      /\ ledger_after a code2 st2 = ledger st)
  /\ (In code2 (expected_exit_codes (package a)) ->
      classify (package a) code2 = "Succeeded").
Proof.
  intros Hgate Hmain Hpost Hcheck Hnz.
  assert (Hrun := perform_action_postcheck _ _ _ _ _ _ _ _ Hmain Hpost Hcheck Hnz).
  assert (Hguard : guarded_action a (started cfg a st)
                   = (Ok (code2, out2, err2), st2))
    by (unfold guarded_action; now apply try_ok).
  split; [exact Hrun|]. split; [|split].
  - now rewrite process_assignment_gate, Hgate, (execute_run _ _ _ _ _ _ _ Hguard).
  - intros Hout.
    assert (Hcl := classify_unexpected _ _ Hnz Hout).
    split; [exact Hcl|].
    rewrite (ledger_after_failed _ _ _ Hcl).
    exact (keeps_guarded_action _ _ _ _ Hguard).
  - apply classify_expected.
Qed.

(** *** C8 *)

(** C8: when 1 is among a package's expected exit codes, every
    internal pipeline failure that comes back as result code 1 (the
    download raised, the checksum did not match, no command is defined
    for the action, an exception was caught) is completed as
    Succeeded with result code 1, and the Ledger row of the package
    is written as installed (for install) or uninstalled (for
    uninstall). *)
Theorem c8_expected_code_1_masks_failure cfg (a : PlanAssignment)
    (st st1 : State W) (out err : string) :
  short_circuits (ledger st) a = false ->
  In 1 (expected_exit_codes (package a)) ->
  internal_failure a (started cfg a st) out err st1 ->
  classify (package a) 1 = "Succeeded"
  /\ process_assignment cfg a st
     = (Ok tt,
        {| world := world st1; ledger := ledger_after a 1 st1;
           log := log st1 ++
                  posted cfg (job_id a)
                    (completed_event "Succeeded" 1 out err) |})
  /\ (action a = "install" ->
      ledger_after a 1 st1
      = update_installed (ledger st) (id (package a)) (name (package a))
          (version (package a)) "installed" 1 (utcnow (world st1)))
  /\ (action a = "uninstall" ->
      ledger_after a 1 st1
      = update_installed (ledger st) (id (package a)) (name (package a))
          (version (package a)) "uninstalled" 1 (utcnow (world st1))).
Proof.
  intros Hgate Hin Hfail.
  assert (Hrun := internal_failure_code_1 _ _ _ _ _ Hfail).
  assert (Hcl := classify_expected _ _ Hin).
  assert (Hled := keeps_guarded_action _ _ _ _ Hrun). simpl in Hled.
  split; [exact Hcl|]. split; [|split].
  - rewrite process_assignment_gate, Hgate, (execute_run _ _ _ _ _ _ _ Hrun).
    now rewrite Hcl.
  - intros Hact. unfold ledger_after. now rewrite Hcl, Hact, Hled.
  - intros Hact. unfold ledger_after. now rewrite Hcl, Hact, Hled.
Qed.

End Run.

(** C4, as stated, fails: once the install has converged, the plan the
    server returns lists the assignment with a null job id; the Ledger
    shows the package installed at the target version, and the agent
    goes through the plan without reporting any event. *)
Lemma c4_no_report_without_job_id :
  Server.get_plan_for_computer History.converged_db 1 = [converged_entry]
  /\ ledger_matches_target converged_ledger converged_entry
  /\ process_plan cfg0 (Server.get_plan_for_computer History.converged_db 1)
                  (state0 (world0 "ab12" 0) converged_ledger)
     = (Ok tt, {| world := world0 "ab12" 0; ledger := converged_ledger;
                  log := [] |}).
Proof.
  split; [reflexivity|]. split; [|reflexivity].
  left. split; [reflexivity|].
  exists {| r_id := 1; r_package_id := 1; r_name := "tool"; r_version := "1.0";
            r_status := "installed"; r_last_action := "2024-06-01T12:00:00";
            r_last_rc := 0 |}.
  split; [reflexivity|]. split; reflexivity.
Qed.

Lemma c4_gate_short_circuits_witness :
  ledger_matches_target (Scripted.ledger0 "uninstalled")
                        (Scripted.entry0 (Some 5) "uninstall" [0])
  /\ process_assignment Scripted.cfg0
       (Scripted.entry0 (Some 5) "uninstall" [0])
       (Scripted.state0 (Scripted.world0 "ab12" 0) (Scripted.ledger0 "uninstalled"))
     = (Ok tt,
        {| world := Scripted.world0 "ab12" 0;
           ledger := Scripted.ledger0 "uninstalled";
           log := [Post 5 (completed_event "Succeeded" 0 "already uninstalled" "")] |}).
Proof.
  assert (Hm : ledger_matches_target (Scripted.ledger0 "uninstalled")
                 (Scripted.entry0 (Some 5) "uninstall" [0])).
  { right. split; [reflexivity|]. right.
    exists (Scripted.row0 "uninstalled"). split; [reflexivity | discriminate]. }
  split; [exact Hm|].
  apply (c4_gate_short_circuits Scripted.cfg0
           (Scripted.entry0 (Some 5) "uninstall" [0])
           (Scripted.state0 (Scripted.world0 "ab12" 0)
                            (Scripted.ledger0 "uninstalled")) Hm).
Defined.

(** ** Concrete runs *)

(** C5, as stated, fails: the downloaded artifact has digest [ffff] and
    the configured checksum is [AB12].  When the package lists 1 among
    its expected exit codes, the job is completed as Succeeded and the
    Ledger records the package as installed; and when the entry has a
    null job id, nothing is reported. *)
Lemma c5_mismatch_reported_succeeded :
  lower "ffff" <> lower (sha256 (pkg0 [0; 1]))
  /\ process_assignment cfg0 (entry0 (Some 5) "install" [0; 1])
       (state0 (world1 "ffff") empty_ledger)
     = (Ok tt,
        {| world := world1_fetched "ffff";
           ledger :=
             {| installed_packages :=
                  [{| r_id := 1; r_package_id := 7; r_name := "tool";
                      r_version := "1.0"; r_status := "installed";
                      r_last_action := "2024-06-01T12:00:00"; r_last_rc := 1 |}];
                seq_installed := 1 |};
           log := [Post 5 start_event;
                   Download "http://repo/tool" "artifact_cache/pkg_7_1.0";
                   Post 5 (completed_event "Succeeded" 1 "" "Checksum mismatch")] |})
  /\ process_assignment cfg0 (entry0 None "install" [0])
       (state0 (world1 "ffff") empty_ledger)
     = (Ok tt,
        {| world := world1_fetched "ffff";
           ledger := empty_ledger;
           log := [Download "http://repo/tool" "artifact_cache/pkg_7_1.0"] |}).
Proof. split; [discriminate|]. split; reflexivity. Qed.

Lemma c5_checksum_mismatch_witness :
  ~ In 1 (expected_exit_codes (pkg0 [0]))
  /\ process_assignment cfg0 (entry0 (Some 5) "install" [0])
       (state0 (world1 "ffff") empty_ledger)
     = (Ok tt,
        {| world := world1_fetched "ffff";
           ledger := empty_ledger;
           log := [Post 5 start_event;
                   Download "http://repo/tool" "artifact_cache/pkg_7_1.0";
                   Post 5 (completed_event "Failed" 1 "" "Checksum mismatch")] |}).
Proof.
  assert (Hout : ~ In 1 (expected_exit_codes (pkg0 [0])))
    by (intros [E|[]]; discriminate).
  split; [exact Hout|].
  destruct (c5_checksum_mismatch_fails cfg0 (entry0 (Some 5) "install" [0])
              (state0 (world1 "ffff") empty_ledger)
              {| world := world1 "ffff"; ledger := empty_ledger;
                 log := [Post 5 start_event] |}
              {| world := world1_fetched "ffff"; ledger := empty_ledger;
                 log := [Post 5 start_event;
                         Download "http://repo/tool" "artifact_cache/pkg_7_1.0"] |}
              "ffff")
    as [_ [_ [_ Hrun]]].
  - reflexivity.
  - reflexivity.
  - split; [reflexivity|]. right. split; reflexivity.
  - reflexivity.
  - reflexivity.
  - discriminate.
  - exact (Hrun Hout).
Defined.

(** C6, as stated, fails: the install command exits 0, the post-check
    exits 3010, and 3010 is one of the package's expected exit codes;
    the completion carries the post-check's code and output with the
    status Succeeded, and the Ledger records the package as
    installed. *)
Lemma c6_postcheck_code_expected :
  process_assignment cfg0 (entry0 (Some 5) "install" [0; 3010])
    (state0 (world0 "ab12" 3010) empty_ledger)
  = (Ok tt,
     {| world := world0 "ab12" 3010;
        ledger :=
          {| installed_packages :=
               [{| r_id := 1; r_package_id := 7; r_name := "tool";
                   r_version := "1.0"; r_status := "installed";
                   r_last_action := "2024-06-01T12:00:00"; r_last_rc := 3010 |}];
             seq_installed := 1 |};
        log := [Post 5 start_event;
                Subprocess "install-tool /S";
                Subprocess "check-tool";
                Post 5 (completed_event "Succeeded" 3010
                                        "check output" "check error")] |}).
Proof. reflexivity. Qed.

Lemma c6_postcheck_witness :
  3 <> 0
  /\ process_assignment cfg0 (entry0 (Some 5) "install" [])
       (state0 (world0 "ab12" 3) empty_ledger)
     = (Ok tt,
        {| world := world0 "ab12" 3;
           ledger := empty_ledger;
           log := [Post 5 start_event;
                   Subprocess "install-tool /S";
                   Subprocess "check-tool";
                   Post 5 (completed_event "Failed" 3
                                           "check output" "check error")] |}).
Proof.
  split; [discriminate|].
  destruct (c6_postcheck_result_reported cfg0 (entry0 (Some 5) "install" [])
              (state0 (world0 "ab12" 3) empty_ledger)
              {| world := world0 "ab12" 3; ledger := empty_ledger;
                 log := [Post 5 start_event; Subprocess "install-tool /S"] |}
              {| world := world0 "ab12" 3; ledger := empty_ledger;
                 log := [Post 5 start_event; Subprocess "install-tool /S";
                         Subprocess "check-tool"] |}
              (0, "installed fine", "") 3 "check output" "check error")
    as [_ [Hrun _]].
  - reflexivity.
  - exists {| world := world0 "ab12" 3; ledger := empty_ledger;
              log := [Post 5 start_event] |},
           {| world := world0 "ab12" 3; ledger := empty_ledger;
              log := [Post 5 start_event] |},
           {| world := world0 "ab12" 3; ledger := empty_ledger;
              log := [Post 5 start_event] |},
           "install-tool".
    repeat split.
  - reflexivity.
  - reflexivity.
  - discriminate.
  - exact Hrun.
Defined.

Lemma c8_expected_code_1_witness :
  In 1 (expected_exit_codes (pkg0 [0; 1]))
  /\ process_assignment cfg0 (entry0 (Some 5) "uninstall" [0; 1])
       (state0 (world0 "ffff" 0) (ledger0 "installed"))
     = (Ok tt,
        {| world := world0 "ffff" 0;
           ledger :=
             {| installed_packages :=
                  [{| r_id := 1; r_package_id := 7; r_name := "tool";
                      r_version := "1.0"; r_status := "uninstalled";
                      r_last_action := "2024-06-01T12:00:00"; r_last_rc := 1 |}];
                seq_installed := 1 |};
           log := [Post 5 start_event;
                   Post 5 (completed_event "Succeeded" 1 "" "Checksum mismatch")] |}).
Proof.
  assert (Hin : In 1 (expected_exit_codes (pkg0 [0; 1])))
    by (right; left; reflexivity).
  split; [exact Hin|].
  destruct (c8_expected_code_1_masks_failure cfg0
              (entry0 (Some 5) "uninstall" [0; 1])
              (state0 (world0 "ffff" 0) (ledger0 "installed"))
              {| world := world0 "ffff" 0; ledger := ledger0 "installed";
                 log := [Post 5 start_event] |}
              "" "Checksum mismatch")
    as [_ [Hrun _]].
  - reflexivity.
  - exact Hin.
  - apply checksum_failure
      with (st1 := {| world := world0 "ffff" 0; ledger := ledger0 "installed";
                      log := [Post 5 start_event] |})
           (digest := "ffff").
    + reflexivity.
    + split; [reflexivity|]. left. split; reflexivity.
    + reflexivity.
    + reflexivity.
    + discriminate.
  - exact Hrun.
Defined.

End AgentFacts.

(** * More on the server store *)

Module StoreFacts.
Import Models Server History ServerFacts.

(** ** set_assignment *)

Lemma find_app_none {A : Type} (P : A -> bool) (l : list A) (x : A) :
  find P l = None -> find P (l ++ [x]) = if P x then Some x else None.
Proof.
  induction l as [|a l IH]; simpl; [reflexivity|].
  destruct (P a); [discriminate | exact IH].
Qed.

Lemma find_app_some {A : Type} (P : A -> bool) (l l' : list A) (x : A) :
  find P l = Some x -> find P (l ++ l') = Some x.
Proof.
  induction l as [|a l IH]; simpl; [discriminate|].
  destruct (P a); [trivial | exact IH].
Qed.

Lemma assignments_schedule_job db c p a :
  assignments (snd (schedule_job db c p a)) = assignments db
  /\ seq_assignments (snd (schedule_job db c p a)) = seq_assignments db.
Proof. split; reflexivity. Qed.

(** The assignments table after [set_assignment]. *)
Lemma assignments_set_assignment db c p d now :
  assignments (snd (set_assignment db c p d now)) =
  match find_assignment db c p with
  | Some row =>
      if String.eqb (a_desired_state row) d then assignments db
      else map (fun a => if a_id a =? a_id row
                         then with_desired_state d now a else a)
               (assignments db)
  | None =>
      assignments db ++
      [{| a_id := seq_assignments db + 1; a_computer_id := c;
          a_package_id := p; a_desired_state := d;
          a_created_at := Some now; a_updated_at := Some now |}]
  end.
Proof.
  unfold set_assignment.
  destruct (find_assignment db c p) as [row|].
  - destruct (String.eqb (a_desired_state row) d); cbn [negb]; [reflexivity|].
    destruct (actionable d); reflexivity.
  - destruct (actionable d); reflexivity.
Qed.

Lemma find_assignment_some db c p row :
  find_assignment db c p = Some row ->
  In row (assignments db) /\ a_computer_id row = c /\ a_package_id row = p.
Proof.
  intros Hf. apply find_some in Hf. destruct Hf as [Hin Hp].
  apply andb_prop in Hp. destruct Hp as [Hc Hp].
  apply Z.eqb_eq in Hc, Hp. auto.
Qed.

(** X1: After set_assignment(c, p, d) the assignment stored for the pair
    (c, p) has desired state d, and, ids being a primary key, the
    assignment stored for every other pair is the one stored before. *)
Theorem set_assignment_upserts (db : Database) (c p : Z) (d now : string) :
  assignment_keys_ok db ->
  (exists row,
      find_assignment (snd (set_assignment db c p d now)) c p = Some row
      /\ a_desired_state row = d
      /\ a_id row = fst (set_assignment db c p d now))
  /\ (forall c' p', (c', p') <> (c, p) ->
        find_assignment (snd (set_assignment db c p d now)) c' p'
        = find_assignment db c' p').
Proof.
  intros [Hnd Hle]. split.
  - unfold find_assignment at 1. rewrite assignments_set_assignment.
    unfold set_assignment.
    destruct (find_assignment db c p) as [row|] eqn:Ef.
    + destruct (String.eqb_spec (a_desired_state row) d) as [Ed|Nd]; cbn [negb].
      * exists row. auto.
      * rewrite find_map_same.
        -- unfold find_assignment in Ef. rewrite Ef. simpl. rewrite Z.eqb_refl.
           eexists. split; [reflexivity|]. split; [reflexivity|].
           now destruct (actionable d).
        -- intros a. now destruct (a_id a =? a_id row).
    + unfold find_assignment in Ef. rewrite (find_app_none _ _ _ Ef). simpl.
      rewrite !Z.eqb_refl. simpl.
      eexists. split; [reflexivity|]. split; [reflexivity|].
      now destruct (actionable d).
  - intros c' p' Hne. unfold find_assignment at 1.
    rewrite assignments_set_assignment.
    destruct (find_assignment db c p) as [row|] eqn:Ef.
    + destruct (String.eqb (a_desired_state row) d); [reflexivity|].
      destruct (find_assignment_some _ _ _ _ Ef) as (Hrow & Hc & Hp).
      rewrite find_map_same;
        [|intros a; now destruct (a_id a =? a_id row)].
      fold (find_assignment db c' p').
      destruct (find_assignment db c' p') as [r'|] eqn:Ef'; [|reflexivity].
      simpl. destruct (find_assignment_some _ _ _ _ Ef') as (Hr' & Hc' & Hp').
      destruct (Z.eqb_spec (a_id r') (a_id row)) as [Eid|]; [|reflexivity].
      exfalso. apply Hne.
      assert (r' = row); [|subst; reflexivity].
      clear - Hnd Hr' Hrow Eid.
      induction (assignments db) as [|a l IH]; [contradiction|].
      simpl in Hnd. inversion Hnd as [|? ? Hnotin Hnd']; subst.
      destruct Hr' as [->|Hr']; destruct Hrow as [->|Hrow]; auto.
      * exfalso. apply Hnotin. rewrite Eid. now apply in_map.
      * exfalso. apply Hnotin. rewrite <- Eid. now apply in_map.
    + unfold find_assignment.
      destruct (find (fun a => (a_computer_id a =? c') && (a_package_id a =? p'))
                     (assignments db)) as [r'|] eqn:Ef'.
      * now apply find_app_some.
      * rewrite (find_app_none _ _ _ Ef'). simpl.
        destruct (Z.eqb_spec c c'); destruct (Z.eqb_spec p p'); simpl;
          try reflexivity.
        exfalso. apply Hne. congruence.
Qed.

Lemma set_assignment_upserts_witness :
  assignment_keys_ok converged_db
  /\ (exists row,
         find_assignment (snd (set_assignment converged_db 1 1 "hold" "t7")) 1 1
         = Some row
         /\ a_desired_state row = "hold"
         /\ a_id row = fst (set_assignment converged_db 1 1 "hold" "t7")).
Proof.
  assert (Hk : assignment_keys_ok converged_db).
  { split.
    - repeat constructor. intros [].
    - repeat constructor. discriminate. }
  split; [exact Hk|].
  exact (proj1 (set_assignment_upserts converged_db 1 1 "hold" "t7" Hk)).
Defined.



(** X3: Setting the same desired state again changes nothing: a second
    set_assignment with the state just stored returns the same assignment
    id and leaves the whole store, jobs included, as it is. *)
Theorem set_assignment_twice (db : Database) (c p : Z) (d now now' : string) :
  set_assignment (snd (set_assignment db c p d now)) c p d now'
  = set_assignment db c p d now.
Proof.
  assert (Hfind : exists row,
             find_assignment (snd (set_assignment db c p d now)) c p = Some row
             /\ a_desired_state row = d
             /\ a_id row = fst (set_assignment db c p d now)).
  { unfold find_assignment at 1. rewrite assignments_set_assignment.
    unfold set_assignment.
    destruct (find_assignment db c p) as [row|] eqn:Ef.
    - destruct (String.eqb_spec (a_desired_state row) d) as [Ed|Nd]; cbn [negb].
      + exists row. auto.
      + rewrite find_map_same.
        * unfold find_assignment in Ef. rewrite Ef. simpl. rewrite Z.eqb_refl.
          eexists. split; [reflexivity|]. split; [reflexivity|].
          now destruct (actionable d).
        * intros a. now destruct (a_id a =? a_id row).
    - unfold find_assignment in Ef. rewrite (find_app_none _ _ _ Ef). simpl.
      rewrite !Z.eqb_refl. simpl.
      eexists. split; [reflexivity|]. split; [reflexivity|].
      now destruct (actionable d). }
  destruct Hfind as (row & Hrow & Hd & Hid).
  unfold set_assignment at 1. rewrite Hrow, Hd, String.eqb_refl. cbn [negb].
  rewrite Hid. now destruct (set_assignment db c p d now).
Qed.

(** X4: set_assignment touches the jobs table in one way only: it appends
    one Pending job for the pair, with the desired state as its action,
    when that state is install or uninstall and is new or changed; in
    every other case (hold, another value, an unchanged state) the jobs
    table and its sequence are left as they are. *)
Theorem set_assignment_jobs (db : Database) (c p : Z) (d now : string) :
  jobs (snd (set_assignment db c p d now))
  = jobs db ++ (if schedules db c p d then [pending_job db c p d] else [])
  /\ seq_jobs (snd (set_assignment db c p d now))
     = (if schedules db c p d then seq_jobs db + 1 else seq_jobs db).
Proof.
  unfold set_assignment, schedules.
  destruct (find_assignment db c p) as [row|].
  - destruct (negb (String.eqb (a_desired_state row) d)).
    + destruct (actionable d); simpl; [split; reflexivity|].
      now rewrite app_nil_r.
    + rewrite andb_false_r. simpl. now rewrite app_nil_r.
  - destruct (actionable d); simpl; [split; reflexivity|].
    now rewrite app_nil_r.
Qed.

(** ** Jobs *)

(** X5: With job ids a primary key below the sequence, the id schedule_job
    returns is new, looking it up gives the Pending row just inserted
    (no start or finish time, no result, zero attempts), and every job
    that could be looked up before is found unchanged. *)
Theorem schedule_job_then_get_job (db : Database) (c p : Z) (action : string) :
  keys_ok db ->
  get_job db (fst (schedule_job db c p action)) = None
  /\ get_job (snd (schedule_job db c p action)) (fst (schedule_job db c p action))
     = Some (pending_job db c p action)
  /\ (forall k j, get_job db k = Some j ->
        get_job (snd (schedule_job db c p action)) k = Some j).
Proof.
  intros [_ Hle].
  assert (Hnew : get_job db (seq_jobs db + 1) = None).
  { unfold get_job. destruct (find _ (jobs db)) as [j|] eqn:Ef; [|reflexivity].
    destruct (find_some_id _ _ _ Ef) as [Hin Hid].
    rewrite Forall_forall in Hle. specialize (Hle j Hin). lia. }
  split; [exact Hnew|]. split.
  - unfold get_job, schedule_job. simpl.
    unfold get_job in Hnew. rewrite (find_app_none _ _ _ Hnew). simpl.
    now rewrite Z.eqb_refl.
  - intros k j Hj. unfold get_job, schedule_job. simpl.
    now apply find_app_some.
Qed.

Lemma schedule_job_then_get_job_witness :
  keys_ok converged_db
  /\ get_job (snd (schedule_job converged_db 1 1 "uninstall")) 2
     = Some (pending_job converged_db 1 1 "uninstall").
Proof.
  assert (Hk : keys_ok converged_db).
  { split.
    - repeat constructor. intros [].
    - repeat constructor. discriminate. }
  split; [exact Hk|].
  exact (proj1 (proj2 (schedule_job_then_get_job converged_db 1 1 "uninstall" Hk))).
Defined.

Lemma update_where_id_absent db k f :
  get_job db k = None -> update_where_id k f db = db.
Proof.
  intros Hnone. unfold update_where_id.
  assert (Hmap : map (fun j => if j_id j =? k then f j else j) (jobs db) = jobs db).
  { rewrite <- (map_id (jobs db)) at 2. apply map_ext_in. intros j Hj.
    unfold get_job in Hnone.
    destruct (Z.eqb_spec (j_id j) k) as [E|]; [|reflexivity].
    exfalso. exact (find_id_none _ _ _ Hnone Hj E). }
  rewrite Hmap. now destruct db.
Qed.

(** X6: A job event never adds or removes a job and never changes the id,
    machine, package or action of any job; the jobs it is not addressed
    to are found unchanged, the other tables are untouched, and an event
    addressed to an unknown job id leaves the whole store as it is. *)
Theorem update_job_status_frame (db : Database) (k : Z) (ph st : option string)
    (rc : option Z) (out err : option string) (now : string) :
  let db' := update_job_status db k ph st rc out err now in
  map (fun j => (j_id j, j_computer_id j, j_package_id j, j_action j)) (jobs db')
  = map (fun j => (j_id j, j_computer_id j, j_package_id j, j_action j)) (jobs db)
  /\ (forall n, n <> k -> get_job db' n = get_job db n)
  /\ assignments db' = assignments db
  /\ packages db' = packages db
  /\ computers db' = computers db
  /\ (get_job db k = None -> db' = db).
Proof.
  assert (Hmap : forall f,
             (forall j, (j_id (f j), j_computer_id (f j), j_package_id (f j),
                         j_action (f j))
                        = (j_id j, j_computer_id j, j_package_id j, j_action j)) ->
             map (fun j => (j_id j, j_computer_id j, j_package_id j, j_action j))
                 (jobs (update_where_id k f db))
             = map (fun j => (j_id j, j_computer_id j, j_package_id j, j_action j))
                   (jobs db)).
  { intros f Hf. unfold update_where_id. simpl. rewrite map_map.
    apply map_ext. intros j. destruct (j_id j =? k); [apply Hf | reflexivity]. }
  assert (Hother : forall f n, (forall j, j_id (f j) = j_id j) -> n <> k ->
             get_job (update_where_id k f db) n = get_job db n).
  { intros f n Hf Hn. rewrite get_job_update_where_id by exact Hf.
    destruct (get_job db n) as [j|] eqn:Ej; [|reflexivity]. simpl.
    destruct (find_some_id _ _ _ Ej) as [_ Hid].
    destruct (Z.eqb_spec (j_id j) k); [congruence | reflexivity]. }
  assert (Hall : forall f,
             (forall j, (j_id (f j), j_computer_id (f j), j_package_id (f j),
                         j_action (f j))
                        = (j_id j, j_computer_id j, j_package_id j, j_action j)) ->
             (forall j, j_id (f j) = j_id j) ->
             map (fun j => (j_id j, j_computer_id j, j_package_id j, j_action j))
                 (jobs (update_where_id k f db))
             = map (fun j => (j_id j, j_computer_id j, j_package_id j, j_action j))
                   (jobs db)
             /\ (forall n, n <> k -> get_job (update_where_id k f db) n = get_job db n)
             /\ assignments (update_where_id k f db) = assignments db
             /\ packages (update_where_id k f db) = packages db
             /\ computers (update_where_id k f db) = computers db
             /\ (get_job db k = None -> update_where_id k f db = db)).
  { intros f Hf Hid.
    split; [now apply Hmap|].
    split; [intros n Hn; now apply Hother|].
    split; [reflexivity|]. split; [reflexivity|]. split; [reflexivity|].
    apply update_where_id_absent. }
  unfold update_job_status.
  destruct (opt_str_eqb ph (Some "start")).
  - apply Hall; reflexivity.
  - destruct (opt_str_eqb ph (Some "completed")).
    + apply Hall; reflexivity.
    + repeat split.
Qed.

(** ** Attempts *)

Lemma get_job_step_other db op n j :
  get_job db n = Some j -> is_start_for n op = false ->
  exists j', get_job (step db op) n = Some j' /\ j_attempts j' = j_attempts j.
Proof.
  intros Hj Hns. destruct op as [c p d now | c p a | k ph st rc out err now]; simpl.
  - exists j. split; [|reflexivity].
    unfold get_job. destruct (set_assignment_jobs db c p d now) as [-> _].
    now apply find_app_some.
  - exists j. split; [|reflexivity].
    unfold get_job, schedule_job. simpl. now apply find_app_some.
  - simpl in Hns. unfold update_job_status.
    destruct (Z.eqb_spec k n) as [->|Hne]; simpl in Hns.
    + rewrite Hns.
      destruct (opt_str_eqb ph (Some "completed")); [|eauto].
      rewrite get_job_update_where_id, Hj by reflexivity. simpl.
      destruct (j_id j =? n); eauto.
    + assert (Hsame : forall f, (forall x, j_id (f x) = j_id x) ->
                 get_job (update_where_id k f db) n = Some j).
      { intros f Hf. rewrite get_job_update_where_id, Hj by exact Hf. simpl.
        destruct (find_some_id _ _ _ Hj) as [_ Hid].
        destruct (Z.eqb_spec (j_id j) k); [congruence | reflexivity]. }
      destruct (opt_str_eqb ph (Some "start")); [rewrite Hsame; eauto|].
      destruct (opt_str_eqb ph (Some "completed")); [rewrite Hsame; eauto|eauto].
Qed.

Lemma get_job_step_start db op n j :
  get_job db n = Some j -> is_start_for n op = true ->
  exists j', get_job (step db op) n = Some j'
             /\ j_attempts j' = j_attempts j + 1
             /\ j_status j' = "InProgress".
Proof.
  intros Hj Hs. destruct op as [c p d now | c p a | k ph st rc out err now];
    try discriminate.
  simpl in Hs. apply andb_prop in Hs. destruct Hs as [Hk Hph].
  apply Z.eqb_eq in Hk. subst k. simpl. unfold update_job_status. rewrite Hph.
  rewrite get_job_update_where_id, Hj by reflexivity. simpl.
  destruct (find_some_id _ _ _ Hj) as [_ Hid]. rewrite Hid, Z.eqb_refl.
  eexists. split; [reflexivity|]. split; reflexivity.
Qed.

(** X7: Along any history of set_assignment, schedule_job and job-event
    operations a job is never lost, and its attempt counter grows by
    exactly the number of start events addressed to it: completions,
    other phases, events for other jobs and assignment changes leave the
    counter alone. *)
Theorem attempts_count_starts (ops : list Op) : forall (db : Database) (n : Z) (j : Job),
  get_job db n = Some j ->
  exists j', get_job (run db ops) n = Some j'
             /\ j_attempts j'
                = j_attempts j + Z.of_nat (List.length (filter (is_start_for n) ops)).
Proof.
  induction ops as [|op ops IH]; intros db n j Hj; simpl.
  - exists j. split; [exact Hj | lia].
  - destruct (is_start_for n op) eqn:Es.
    + destruct (get_job_step_start _ _ _ _ Hj Es) as (j1 & Hj1 & Ha & _).
      destruct (IH _ _ _ Hj1) as (j' & Hj' & Ha').
      exists j'. split; [exact Hj'|]. rewrite Ha', Ha. simpl List.length. lia.
    + destruct (get_job_step_other _ _ _ _ Hj Es) as (j1 & Hj1 & Ha).
      destruct (IH _ _ _ Hj1) as (j' & Hj' & Ha').
      exists j'. split; [exact Hj'|]. rewrite Ha', Ha. lia.
Qed.

Lemma attempts_count_starts_witness :
  get_job converged_db 1 <> None
  /\ exists j',
       get_job (run converged_db
                  [JobEvent 1 (Some "start") None None None None "t5";
                   JobEvent 1 (Some "completed") None None None None "t6";
                   JobEvent 1 (Some "start") None None None None "t7"]) 1 = Some j'
       /\ j_attempts j' = 1 + 2.
Proof.
  split; [discriminate|].
  exact (attempts_count_starts
           [JobEvent 1 (Some "start") None None None None "t5";
            JobEvent 1 (Some "completed") None None None None "t6";
            JobEvent 1 (Some "start") None None None None "t7"]
           converged_db 1 _ eq_refl).
Defined.

(** ** Dashboard counts *)

Lemma filter_two_le {A : Type} (P Q : A -> bool) (l : list A) :
  (forall x, P x = true -> Q x = false) ->
  (List.length (filter P l) + List.length (filter Q l) <= List.length l)%nat.
Proof.
  intros Hdis. induction l as [|a l IH]; simpl; [lia|].
  destruct (P a) eqn:Ea.
  - rewrite (Hdis a Ea). simpl. lia.
  - destruct (Q a); simpl; lia.
Qed.

(** X8: In the summary, failed and succeeded jobs are disjoint parts of the
    jobs count, so their sum never exceeds it; and scheduling a job
    raises the jobs count by one and neither of the two. *)
Theorem get_summary_counts (db : Database) (c p : Z) (action : string) :
  (s_failed_jobs (get_summary db) + s_succeeded_jobs (get_summary db)
   <= s_jobs (get_summary db))%nat
  /\ s_jobs (get_summary (snd (schedule_job db c p action)))
     = S (s_jobs (get_summary db))
  /\ s_failed_jobs (get_summary (snd (schedule_job db c p action)))
     = s_failed_jobs (get_summary db)
  /\ s_succeeded_jobs (get_summary (snd (schedule_job db c p action)))
     = s_succeeded_jobs (get_summary db).
Proof.
  split.
  - unfold get_summary. simpl. apply filter_two_le.
    intros j Hf. apply String.eqb_eq in Hf. now rewrite Hf.
  - unfold get_summary, schedule_job. simpl.
    rewrite !filter_app, !length_app. simpl. repeat split; lia.
Qed.

(** ** The plan lists a package once *)







End StoreFacts.

(** * More on the JSON API *)

Module ApiMore.
Import Models Server ServerApi History ServerFacts StoreFacts.

(** ** The events route *)


(** ** The plan route *)




(** ** Enrolment *)




(** ** Credentials *)

Lemma find_unique_computer (l : list Computer) (comp : Computer) :
  NoDup (map c_id l) -> In comp l ->
  find (fun c => c_id c =? c_id comp) l = Some comp.
Proof.
  induction l as [|a l IH]; simpl; intros Hnd Hin; [contradiction|].
  inversion Hnd as [|? ? Hnotin Hnd']; subst.
  destruct Hin as [->|Hin]; [now rewrite Z.eqb_refl|].
  destruct (Z.eqb_spec (c_id a) (c_id comp)) as [E|]; [|now apply IH].
  exfalso. apply Hnotin. rewrite E. now apply in_map.
Qed.

Lemma token_unused_not_taken db cid token :
  token_unused db token = true -> token_taken db cid token = false.
Proof.
  unfold token_unused, token_taken. intros Hu.
  apply not_true_is_false. intros Ht.
  apply existsb_exists in Ht. destruct Ht as [c [Hc Ht]].
  rewrite forallb_forall in Hu. specialize (Hu c Hc).
  apply andb_prop in Ht. destruct Ht as [_ Ht].
  rewrite Ht in Hu. discriminate.
Qed.

(** What a successful Enroll leaves behind, for an existing or a new
    hostname alike. *)
Lemma enroll_outcome (db : Database) (payload : EnrollPayload)
    (fresh_token now : string) :
  let hostname := strip (or_str (en_hostname payload) "") in
  computer_keys_ok db ->
  truthy hostname = true ->
  token_unused db fresh_token = true ->
  exists cid db' row,
    handle_api db (Enroll payload) fresh_token now
    = (Ok {| code := 200; body := Enrolled cid fresh_token |}, db')
    /\ computer_keys_ok db'
    /\ get_computer db' cid = Some row
    /\ c_token row = Some fresh_token
    /\ (forall comp, get_computer_by_hostname db hostname = Some comp ->
          cid = c_id comp /\ c_token_revoked row = c_token_revoked comp)
    /\ (get_computer_by_hostname db hostname = None ->
          cid = seq_computers db + 1 /\ c_token_revoked row = 0
          /\ c_hostname row = hostname)
    /\ jobs db' = jobs db /\ assignments db' = assignments db
    /\ packages db' = packages db.
Proof.
  intros hostname [Hnd Hle] Hname Hunused.
  simpl. unfold handle_enroll. fold hostname. rewrite Hname. cbn [negb].
  set (os_name := strip (or_str (en_os payload) "")).
  set (arch := strip (or_str (en_arch payload) "")).
  set (g := fun cid c => if c_id c =? cid
                         then with_last_check_in now
                                (with_token_and_meta fresh_token os_name arch
                                   (en_client_version payload) c)
                         else c).
  assert (Hids : forall cid l, map c_id (map (g cid) l) = map c_id l).
  { intros cid l. rewrite map_map. apply map_ext. intros c. unfold g.
    now destruct (c_id c =? cid). }
  destruct (get_computer_by_hostname db hostname) as [comp|] eqn:Ecomp.
  - assert (Hin : In comp (computers db)).
    { unfold get_computer_by_hostname in Ecomp. now apply find_some in Ecomp. }
    unfold set_token_and_meta.
    rewrite (token_unused_not_taken _ (c_id comp) _ Hunused), andb_false_r.
    exists (c_id comp). eexists. exists (g (c_id comp) comp).
    split; [reflexivity|].
    assert (Hcs : computers
                    (update_last_check_in
                       (set_computers db
                          (map (fun c => if c_id c =? c_id comp
                                         then with_token_and_meta fresh_token os_name
                                                arch (en_client_version payload) c
                                         else c) (computers db))
                          (seq_computers db)) (c_id comp) now)
                  = map (g (c_id comp)) (computers db)).
    { apply ApiFacts.computers_after_reenroll. }
    split; [split|].
    + rewrite Hcs, Hids. exact Hnd.
    + rewrite Hcs. simpl. rewrite Forall_forall in *. intros x Hx.
      apply in_map_iff in Hx. destruct Hx as [c [<- Hc]].
      specialize (Hle c Hc). unfold g. now destruct (c_id c =? c_id comp).
    + split.
      * unfold get_computer. rewrite Hcs.
        rewrite find_map_same;
          [|intros c; unfold g;
            destruct (c_id c =? c_id comp) eqn:E; simpl; now rewrite ?E].
        now rewrite (find_unique_computer _ _ Hnd Hin).
      * unfold g. rewrite Z.eqb_refl. simpl.
        split; [reflexivity|]. split; [intros c [= <-]; auto|].
        split; [discriminate|]. repeat split.
  - unfold create_computer. rewrite Ecomp.
    set (cid := seq_computers db + 1).
    set (row := {| c_id := cid; c_hostname := hostname; c_os := Some os_name;
                   c_arch := Some arch; c_tags := Some "[]";
                   c_last_check_in := None; c_client_version := None;
                   c_token := None; c_token_revoked := 0 |}).
    assert (Hold : forall c, In c (computers db) -> (c_id c =? cid) = false).
    { intros c Hc. rewrite Forall_forall in Hle. specialize (Hle c Hc).
      apply Z.eqb_neq. unfold cid. lia. }
    assert (Htaken : token_taken (set_computers db (computers db ++ [row]) cid)
                                 cid fresh_token = false).
    { unfold token_taken. simpl. rewrite existsb_app. simpl.
      rewrite Z.eqb_refl. simpl. rewrite orb_false_r.
      apply not_true_is_false. intros Ht.
      apply existsb_exists in Ht. destruct Ht as [c [Hc Ht]].
      unfold token_unused in Hunused. rewrite forallb_forall in Hunused.
      specialize (Hunused c Hc). apply andb_prop in Ht. destruct Ht as [_ Ht].
      rewrite Ht in Hunused. discriminate. }
    unfold set_token_and_meta. rewrite Htaken, andb_false_r.
    exists cid. eexists. exists (g cid row).
    split; [reflexivity|].
    assert (Hcs : computers
                    (update_last_check_in
                       (set_computers (set_computers db (computers db ++ [row]) cid)
                          (map (fun c => if c_id c =? cid
                                         then with_token_and_meta fresh_token os_name
                                                arch (en_client_version payload) c
                                         else c)
                               (computers (set_computers db (computers db ++ [row]) cid)))
                          (seq_computers (set_computers db (computers db ++ [row]) cid)))
                       cid now)
                  = map (g cid) (computers db ++ [row])).
    { simpl. rewrite map_map. apply map_ext. intros c. unfold g.
      destruct (c_id c =? cid) eqn:E; simpl; rewrite E; reflexivity. }
    split; [split|].
    + rewrite Hcs, Hids, map_app. simpl.
      apply NoDup_app; [exact Hnd | repeat constructor; intros [] | ].
      intros k Hk [<-|[]]. apply in_map_iff in Hk. destruct Hk as [c [Hc Hin]].
      specialize (Hold c Hin). apply Z.eqb_neq in Hold. contradiction.
    + rewrite Hcs. simpl. rewrite Forall_forall in *. intros x Hx.
      apply in_map_iff in Hx. destruct Hx as [c [<- Hc]].
      assert (Hcid : c_id (g cid c) = c_id c)
        by (unfold g; now destruct (c_id c =? cid)).
      rewrite Hcid. apply in_app_or in Hc. destruct Hc as [Hc|[<-|[]]].
      * specialize (Hle c Hc). fold cid. lia.
      * simpl. lia.
    + split.
      * unfold get_computer. rewrite Hcs.
        rewrite find_map_same;
          [|intros c; unfold g;
            destruct (c_id c =? cid) eqn:E; simpl; now rewrite ?E].
        assert (Hnone : find (fun c => c_id c =? cid) (computers db) = None).
        { destruct (find _ (computers db)) as [c|] eqn:Ef; [|reflexivity].
          apply find_some in Ef. destruct Ef as [Hc Ec].
          rewrite (Hold c Hc) in Ec. discriminate. }
        rewrite (find_app_none _ _ _ Hnone). simpl. now rewrite Z.eqb_refl.
      * unfold g. simpl. rewrite Z.eqb_refl. simpl.
        split; [reflexivity|]. split; [discriminate|].
        split; [intros _; repeat split|]. repeat split.
Qed.



(** X14: Enrolling again revokes the previous credential in effect: after a
    successful re-enrolment of an existing hostname, a plan request for
    that machine carrying any token other than the new one is answered
    401 and changes nothing. *)
Theorem reenroll_invalidates_old_token (db : Database) (payload : EnrollPayload)
    (fresh_token now old_token fresh_token' now' : string) (comp : Computer) :
  let hostname := strip (or_str (en_hostname payload) "") in
  let db' := snd (handle_api db (Enroll payload) fresh_token now) in
  computer_keys_ok db ->
  truthy hostname = true ->
  token_unused db fresh_token = true ->
  get_computer_by_hostname db hostname = Some comp ->
  old_token <> fresh_token ->
  exists resp,
    handle_api db' (FetchPlan (c_id comp) (Some old_token)) fresh_token' now'
    = (Ok resp, db')
    /\ code resp = 401.
Proof.
  intros hostname db' Hkeys Hname Hunused Hcomp Hdiff.
  destruct (enroll_outcome db payload fresh_token now Hkeys Hname Hunused)
    as (cid & db1 & row & Hresp & _ & Hrow & Hrt & Hold & _).
  fold hostname in Hold. destruct (Hold comp Hcomp) as [-> _].
  subst db'. rewrite Hresp. simpl. unfold handle_plan.
  destruct (token_missing (Some old_token)); [eexists; split; reflexivity|].
  rewrite Hrow.
  destruct (negb (c_token_revoked row =? 0)); [eexists; split; reflexivity|].
  rewrite Hrt. simpl.
  apply String.eqb_neq in Hdiff. rewrite String.eqb_sym, Hdiff. simpl.
  eexists. split; reflexivity.
Qed.

Lemma reenroll_invalidates_old_token_witness :
  "tok-1" <> "tok-2"
  /\ exists resp,
       handle_api
         (snd (handle_api enrolled_db
                 (Enroll {| en_hostname := Some "host1"; en_os := None;
                            en_arch := None; en_client_version := None |})
                 "tok-2" "t8"))
         (FetchPlan 1 (Some "tok-1")) "" "t9"
       = (Ok resp,
          snd (handle_api enrolled_db
                 (Enroll {| en_hostname := Some "host1"; en_os := None;
                            en_arch := None; en_client_version := None |})
                 "tok-2" "t8"))
       /\ code resp = 401.
Proof.
  split; [discriminate|].
  apply (reenroll_invalidates_old_token enrolled_db
           {| en_hostname := Some "host1"; en_os := None;
              en_arch := None; en_client_version := None |}
           "tok-2" "t8" "tok-1" "" "t9"
           {| c_id := 1; c_hostname := "host1"; c_os := Some "linux";
              c_arch := Some "x86_64"; c_tags := Some "[]";
              c_last_check_in := Some "t0"; c_client_version := Some "0.9";
              c_token := Some "tok-1"; c_token_revoked := 0 |}).
  - split.
    + repeat constructor. intros [].
    + repeat constructor. discriminate.
  - reflexivity.
  - reflexivity.
  - reflexivity.
  - discriminate.
Defined.

(** ** The bearer token *)




Lemma truthy_append_char (s : string) (c : ascii) :
  truthy (s ++ String c "") = true.
Proof. now destruct s. Qed.




(** ** Administrative edits and failures *)




(** X17: When the token generated for a re-enrolment is already held by
    another machine, the request fails as a whole: the server answers
    500 and the store is unchanged, so the machine keeps the token it
    had. *)
Theorem enroll_token_collision (db : Database) (payload : EnrollPayload)
    (fresh_token now : string) (comp : Computer) :
  let hostname := strip (or_str (en_hostname payload) "") in
  truthy hostname = true ->
  get_computer_by_hostname db hostname = Some comp ->
  token_taken db (c_id comp) fresh_token = true ->
  code (fst (call db (Enroll payload) fresh_token now)) = 500
  /\ snd (call db (Enroll payload) fresh_token now) = db.
Proof.
  intros hostname Hname Hcomp Htaken.
  unfold call. simpl. unfold handle_enroll. fold hostname.
  rewrite Hname, Hcomp. cbn [negb]. unfold set_token_and_meta.
  assert (Hex : existsb (fun c => c_id c =? c_id comp) (computers db) = true).
  { apply existsb_exists. exists comp. split; [|apply Z.eqb_refl].
    unfold get_computer_by_hostname in Hcomp. now apply find_some in Hcomp. }
  rewrite Hex, Htaken. simpl. split; reflexivity.
Qed.

Lemma enroll_token_collision_witness :
  token_taken two_machines_db 1 "tok-2" = true
  /\ code (fst (call two_machines_db
                  (Enroll {| en_hostname := Some "host1"; en_os := None;
                             en_arch := None; en_client_version := None |})
                  "tok-2" "t9")) = 500
  /\ snd (call two_machines_db
            (Enroll {| en_hostname := Some "host1"; en_os := None;
                       en_arch := None; en_client_version := None |})
            "tok-2" "t9") = two_machines_db.
Proof.
  split; [reflexivity|].
  apply (enroll_token_collision two_machines_db
           {| en_hostname := Some "host1"; en_os := None;
              en_arch := None; en_client_version := None |}
           "tok-2" "t9"
           {| c_id := 1; c_hostname := "host1"; c_os := Some "linux";
              c_arch := Some "x86_64"; c_tags := Some "[]";
              c_last_check_in := Some "t0"; c_client_version := Some "0.9";
              c_token := Some "tok-1"; c_token_revoked := 0 |});
    reflexivity.
Defined.

End ApiMore.

(** * More on the agent *)

Module AgentMore.
Import Models Agent Scripted AgentFacts.

(** ** Output tails *)

Lemma substring_all (s : string) (n : nat) :
  (String.length s <= n)%nat -> substring 0 n s = s.
Proof.
  revert n. induction s as [|c r IH]; intros n Hn; destruct n as [|n]; simpl in *;
    try reflexivity; try lia.
  rewrite IH; [reflexivity | lia].
Qed.

(** [s[-n:]] is the suffix of [s] of length [min n (len s)]. *)
Lemma tail_chars_suffix (n : nat) (s : string) :
  exists pre, s = (pre ++ tail_chars n s)%string
              /\ String.length (tail_chars n s) = Nat.min n (String.length s).
Proof.
  unfold tail_chars. induction s as [|c r IH].
  - exists "". split; [now destruct n | now destruct n].
  - destruct (Nat.le_gt_cases (String.length (String c r)) n) as [Hle|Hgt].
    + exists "". replace (String.length (String c r) - n)%nat with 0%nat by lia.
      rewrite substring_all by exact Hle. split; [reflexivity | lia].
    + simpl in Hgt. destruct IH as [pre [Hpre Hlen]].
      exists (String c pre).
      replace (String.length (String c r) - n)%nat
        with (S (String.length r - n)) by (cbn [String.length]; lia).
      cbn [substring String.length append].
      split; [now rewrite <- Hpre | rewrite Hlen; lia].
Qed.

Section Pipeline.
Context {W : Type} `{Host W}.

(** ** Effects of the installer *)

Lemma emits_ret (P : Effect -> Prop) {A} (a : A) : emits (W := W) P (ret a).
Proof.
  intros st r st' E. unfold ret in E. injection E as _ <-.
  exists []. split; [now rewrite app_nil_r | constructor].
Qed.

Lemma emits_bind (P : Effect -> Prop) {A B} (m : M W A) (k : A -> M W B) :
  emits P m -> (forall a, emits P (k a)) -> emits P (bind m k).
Proof.
  intros Hm Hk st r st' E. unfold bind in E.
  destruct (m st) as [[a|e] st1] eqn:Em.
  - destruct (Hm _ _ _ Em) as [es1 [H1 P1]].
    destruct (Hk a _ _ _ E) as [es2 [H2 P2]].
    exists (es1 ++ es2). split; [now rewrite H2, H1, app_assoc|].
    now apply Forall_app.
  - injection E as _ <-. exact (Hm _ _ _ Em).
Qed.

Lemma emits_try (P : Effect -> Prop) {A} (m : M W A) (handler : string -> M W A) :
  emits P m -> (forall e, emits P (handler e)) -> emits P (try_except m handler).
Proof.
  intros Hm Hh st r st' E. unfold try_except in E.
  destruct (m st) as [[a|e] st1] eqn:Em.
  - injection E as _ <-. exact (Hm _ _ _ Em).
  - destruct (Hm _ _ _ Em) as [es1 [H1 P1]].
    destruct (Hh e _ _ _ E) as [es2 [H2 P2]].
    exists (es1 ++ es2). split; [now rewrite H2, H1, app_assoc|].
    now apply Forall_app.
Qed.

Lemma emits_emit (P : Effect -> Prop) (e : Effect) : P e -> emits (W := W) P (emit e).
Proof.
  intros He st r st' E. unfold emit in E. injection E as _ <-.
  exists [e]. split; [reflexivity | now constructor].
Qed.

Lemma emits_silent (P : Effect -> Prop) {A} (m : M W A) :
  (forall st r st', m st = (r, st') -> log st' = log st) -> emits P m.
Proof.
  intros Hm st r st' E. exists []. rewrite app_nil_r.
  split; [exact (Hm _ _ _ E) | constructor].
Qed.

Lemma emits_on_world (P : Effect -> Prop) {A} (f : W -> result A * W) :
  emits P (on_world f).
Proof. apply emits_silent. intros st r st'. apply on_world_log. Qed.

Lemma emits_pure (P : Effect -> Prop) {A} (f : State W -> result A) :
  emits P (fun st => (f st, st)).
Proof. apply emits_silent. intros st r st' E. now injection E as _ <-. Qed.

Ltac effects :=
  repeat first
    [ apply emits_ret | apply emits_on_world
    | apply (emits_pure _ (fun st => file_sha256 _ (world st)))
    | apply (emits_pure _ (fun st => Ok (_ (world st))))
    | apply (emits_pure _ (fun _ => _))
    | apply emits_emit; reflexivity
    | apply emits_bind; [|intros ?] | apply emits_try; [|intros ?]
    | match goal with
      | |- emits _ (if ?b then _ else _) => destruct b
      | |- emits _ (match ?x with Some _ => _ | None => _ end) => destruct x
      | |- emits _ (let '(_, _) := ?x in _) => destruct x
      end ].

Lemma emits_run_subprocess command : emits (W := W) not_post (run_subprocess command).
Proof. unfold run_subprocess. effects. Qed.

Lemma emits_download_file url dest : emits (W := W) not_post (download_file url dest).
Proof. unfold download_file. effects. Qed.

Lemma emits_perform_action a act : emits (W := W) not_post (perform_action a act).
Proof.
  unfold perform_action, fetch_artifact, run_precheck, verify_sha256, read_world,
    of_result.
  effects; first [apply emits_run_subprocess | apply emits_download_file].
Qed.

Lemma emits_guarded_action a : emits (W := W) not_post (guarded_action a).
Proof.
  unfold guarded_action.
  apply emits_try; [apply emits_perform_action | intros e; apply emits_ret].
Qed.

(** ** run_subprocess *)

(** X18: run_subprocess never raises and logs exactly one process run.  When
    the process ran, it returns its exit code and, of each output
    stream, the last 4096 characters at most (the whole stream when it
    is no longer than that); when starting it raised, it returns code 1,
    an empty output and the text of the exception. *)
Theorem run_subprocess_tails (command : string) (st : State W) :
  exists code out err st',
    run_subprocess command st = (Ok (code, out, err), st')
    /\ log st' = log st ++ [Subprocess command]
    /\ ledger st' = ledger st
    /\ match fst (subprocess_run command (world st)) with
       | Ok (returncode, stdout, stderr) =>
           code = returncode
           /\ (String.length out <= 4096)%nat /\ (String.length err <= 4096)%nat
           /\ (exists pre, stdout = (pre ++ out)%string)
           /\ (exists pre, stderr = (pre ++ err)%string)
           /\ ((String.length stdout <= 4096)%nat -> out = stdout)
           /\ ((String.length stderr <= 4096)%nat -> err = stderr)
       | Raise e => (code, out, err) = (1, "", e)
       end.
Proof.
  unfold run_subprocess, bind, emit, try_except, on_world, ret. simpl.
  destruct (subprocess_run command (world st)) as [[[[rc o] e]|msg] w]; simpl.
  - do 4 eexists. split; [reflexivity|]. simpl.
    split; [reflexivity|]. split; [reflexivity|]. split; [reflexivity|].
    destruct (tail_chars_suffix 4096 o) as [po [Ho Lo]].
    destruct (tail_chars_suffix 4096 e) as [pe [He Le]].
    split; [rewrite Lo; apply Nat.le_min_l|].
    split; [rewrite Le; apply Nat.le_min_l|].
    split; [now exists po|]. split; [now exists pe|].
    unfold tail_chars. split; intros Hl.
    + replace (String.length o - 4096)%nat with 0%nat by lia.
      now apply substring_all.
    + replace (String.length e - 4096)%nat with 0%nat by lia.
      now apply substring_all.
  - do 4 eexists. split; [reflexivity|]. simpl. repeat split.
Qed.

Lemma run_subprocess_ok command (st : State W) rc o e w :
  subprocess_run command (world st) = (Ok (rc, o, e), w) ->
  run_subprocess command st
  = (Ok (rc, tail_chars 4096 o, tail_chars 4096 e),
     {| world := w; ledger := ledger st; log := log st ++ [Subprocess command] |}).
Proof.
  intros Hrun. unfold run_subprocess, bind, emit, try_except, on_world, ret.
  simpl. now rewrite Hrun.
Qed.

(** ** Early exits of perform_action *)

(** X19: A pre-check that exits non-zero ends the action: perform_action
    returns the pre-check's exit code and output tails, and the
    pre-check is the only process run -- neither the install/uninstall
    command nor the post-check is started. *)
Theorem precheck_failure_aborts (a : PlanAssignment) (act : string)
    (st st1 st2 : State W) (rc : Z) (o e : string) (w : W) :
  on_world (mkdir cache_dir) st = (Ok tt, st1) ->
  fetch_artifact (package a) st1 = (Ok None, st2) ->
  truthy (precheck_cmd (package a)) = true ->
  subprocess_run (precheck_cmd (package a)) (world st2) = (Ok (rc, o, e), w) ->
  rc <> 0 ->
  perform_action a act st
  = (Ok (rc, tail_chars 4096 o, tail_chars 4096 e),
     {| world := w; ledger := ledger st2;
        log := log st2 ++ [Subprocess (precheck_cmd (package a))] |}).
Proof.
  intros Hmk Hfetch Hpre Hrun Hnz. unfold perform_action.
  rewrite (bind_ok _ _ _ _ _ Hmk), (bind_ok _ _ _ _ _ Hfetch).
  unfold run_precheck. rewrite Hpre.
  unfold bind at 1. unfold bind at 1.
  rewrite (run_subprocess_ok _ _ _ _ _ _ Hrun). cbn [fst].
  apply Z.eqb_neq in Hnz. rewrite Hnz. reflexivity.
Qed.

(** X20: A download that raises ends the action before anything is run:
    perform_action returns code 1 with the error tail "Download failed:"
    followed by the exception text; the checksum is not verified and no
    process is started. *)
Theorem download_failure_aborts (a : PlanAssignment) (act : string)
    (st st1 : State W) (e : string) (w : W) :
  on_world (mkdir cache_dir) st = (Ok tt, st1) ->
  truthy (download_url (package a)) = true ->
  path_exists (artifact_path (package a)) (world st1) = false ->
  urlopen_to_file (download_url (package a)) (artifact_path (package a)) (world st1)
  = (Raise e, w) ->
  perform_action a act st
  = (Ok (1, "", ("Download failed: " ++ e)%string),
     {| world := w; ledger := ledger st1;
        log := log st1 ++ [Download (download_url (package a))
                                    (artifact_path (package a))] |}).
Proof.
  intros Hmk Hurl Hex Hdl.
  apply perform_action_early with (st1 := st1); [exact Hmk|].
  apply fetch_artifact_download_failed; [exact Hurl | exact Hex|].
  unfold download_file, bind, emit, on_world. simpl. now rewrite Hdl.
Qed.

(** X21: A cached artifact is used as it is: when the artifact is already in
    the cache and either the package has no checksum or the file's
    digest equals the checksum up to letter case, the artifact block
    downloads nothing, changes nothing and lets the action go on. *)
Theorem cached_artifact_accepted (pkg : PackageSpec) (st : State W) :
  truthy (download_url pkg) = true ->
  path_exists (artifact_path pkg) (world st) = true ->
  (truthy (sha256 pkg) = false
   \/ exists digest, file_sha256 (artifact_path pkg) (world st) = Ok digest
                     /\ lower digest = lower (sha256 pkg)) ->
  fetch_artifact pkg st = (Ok None, st).
Proof.
  intros Hurl Hex Hsum. unfold fetch_artifact, verify_sha256. rewrite Hurl.
  unfold bind at 1, try_except, bind at 1, read_world. rewrite Hex. cbn [negb].
  unfold bind at 1, ret at 1. unfold ret at 1.
  destruct Hsum as [Hno | [digest [Hd Heq]]].
  - rewrite Hno. reflexivity.
  - destruct (truthy (sha256 pkg)); [|reflexivity]. cbn [negb].
    unfold bind, ret. rewrite Hd, Heq, String.eqb_refl. reflexivity.
Qed.

(** ** One plan entry *)



(** What processing one entry amounts to. *)
Lemma process_assignment_shape cfg (a : PlanAssignment) (st : State W) :
  exists st',
    process_assignment cfg a st = (Ok tt, st')
    /\ (if short_circuits (ledger st) a
        then st' = logged st (posted cfg (job_id a)
                                (completed_event "Succeeded" 0 (gate_message a) ""))
        else exists code out err es st1,
            guarded_action a (started cfg a st) = (Ok (code, out, err), st1)
            /\ Forall not_post es
            /\ log st1 = log st ++ posted cfg (job_id a) start_event ++ es
            /\ ledger st1 = ledger st
            /\ st' = {| world := world st1; ledger := ledger_after a code st1;
                        log := log st1 ++
                               posted cfg (job_id a)
                                 (completed_event (classify (package a) code)
                                                  code out err) |}).
Proof.
  rewrite process_assignment_gate.
  destruct (short_circuits (ledger st) a).
  - rewrite report_run. eexists. split; reflexivity.
  - destruct (guarded_action_total a (started cfg a st)) as [[[code out] err] [st1 Hrun]].
    rewrite (execute_run _ _ _ _ _ _ _ Hrun).
    eexists. split; [reflexivity|].
    destruct (emits_guarded_action a _ _ _ Hrun) as [es [Hlog Hes]].
    exists code, out, err, es, st1.
    split; [exact Hrun|]. split; [exact Hes|].
    split; [rewrite Hlog; unfold started, logged; simpl; now rewrite app_assoc|].
    split; [exact (keeps_guarded_action _ _ _ _ Hrun) | reflexivity].
Qed.



(** ** The Ledger as a table *)

(** X24: Looking a package up after update_installed gives a row with the
    version, status, result code and time just written; the row keeps
    the name it was first inserted with; and the rows of all other
    packages are found unchanged. *)
Theorem update_installed_then_get_installed (db : ClientDB) (package_id : Z)
    (name version status : string) (rc : Z) (now : string) :
  let db' := update_installed db package_id name version status rc now in
  (exists r,
      get_installed db' package_id = Some r
      /\ r_package_id r = package_id /\ r_version r = version
      /\ r_status r = status /\ r_last_rc r = rc /\ r_last_action r = now
      /\ r_name r = match get_installed db package_id with
                    | Some old => r_name old
                    | None => name
                    end)
  /\ (forall q, q <> package_id -> get_installed db' q = get_installed db q).
Proof.
  intros db'. subst db'. unfold update_installed.
  destruct (get_installed db package_id) as [old|] eqn:Eold.
  - assert (Hid : r_package_id old = package_id).
    { unfold get_installed in Eold. apply find_some in Eold.
      now apply Z.eqb_eq. }
    split.
    + unfold get_installed at 1. simpl.
      rewrite get_installed_updated by reflexivity. rewrite Eold. simpl.
      eexists. split; [reflexivity|]. simpl. repeat split. exact Hid.
    + intros q Hq. unfold get_installed. simpl.
      rewrite ServerFacts.find_map_same;
        [|intros r; now destruct (r_package_id r =? package_id)].
      destruct (find _ (installed_packages db)) as [r|] eqn:Er; [|reflexivity].
      simpl. apply find_some in Er. destruct Er as [_ Er].
      apply Z.eqb_eq in Er.
      destruct (Z.eqb_spec (r_package_id r) package_id); [congruence | reflexivity].
  - split.
    + unfold get_installed in *. simpl.
      rewrite (StoreFacts.find_app_none _ _ _ Eold). simpl.
      rewrite Z.eqb_refl. eexists. split; [reflexivity|]. simpl. repeat split.
    + intros q Hq. unfold get_installed. simpl.
      destruct (find _ (installed_packages db)) as [r|] eqn:Er.
      * now apply StoreFacts.find_app_some.
      * rewrite (StoreFacts.find_app_none _ _ _ Er). simpl.
        destruct (Z.eqb_spec package_id q); [congruence | reflexivity].
Qed.

Lemma update_installed_keeps_single (db : ClientDB) (package_id : Z)
    (name version status : string) (rc : Z) (now : string) :
  single_rows db ->
  single_rows (update_installed db package_id name version status rc now).
Proof.
  intros Hone. unfold update_installed.
  destruct (get_installed db package_id) as [r0|] eqn:Eget; intros q;
    specialize (Hone q); simpl.
  - eapply Nat.le_trans; [apply ServerFacts.filter_map_length_le | exact Hone].
    intros x _. now destruct (r_package_id x =? package_id).
  - rewrite filter_app, length_app. simpl.
    destruct (Z.eqb_spec package_id q) as [<-|Hne]; simpl.
    + unfold get_installed in Eget.
      rewrite (filter_nil_of_find_none _ _ Eget). simpl. lia.
    + rewrite Nat.add_0_r. exact Hone.
Qed.

(** ** Delivering an entry again *)

(** X25: Re-delivery is harmless: when an install or uninstall entry was
    executed and its result classified Succeeded, processing the same
    entry again (a repeated poll, a lost acknowledgement) short-circuits:
    it runs nothing, leaves host and Ledger alone, and only reports
    Succeeded with code 0 when the entry has a job id. *)
Theorem redelivery_short_circuits (cfg : Config) (a : PlanAssignment)
    (st st1 : State W) (code : Z) (out err : string) :
  short_circuits (ledger st) a = false ->
  action a = "install" \/ action a = "uninstall" ->
  guarded_action a (started cfg a st) = (Ok (code, out, err), st1) ->
  classify (package a) code = "Succeeded" ->
  let st' := snd (process_assignment cfg a st) in
  process_assignment cfg a st'
  = (Ok tt,
     {| world := world st'; ledger := ledger st';
        log := log st' ++
               posted cfg (job_id a)
                 (completed_event "Succeeded" 0 (gate_message a) "") |}).
Proof.
  intros Hgate Hact Hrun Hcl st'. subst st'.
  assert (Hfirst := execute_run cfg _ _ _ _ _ _ Hrun).
  assert (Hproc : process_assignment cfg a st = execute cfg a st)
    by (now rewrite process_assignment_gate, Hgate).
  rewrite Hproc, Hfirst. cbn [snd].
  set (st' := {| world := world st1; ledger := ledger_after a code st1;
                 log := log st1 ++ posted cfg (job_id a)
                          (completed_event (classify (package a) code) code out err) |}).
  assert (Hmatch : short_circuits (ledger st') a = true).
  { apply short_circuits_iff. unfold ledger_matches_target. simpl.
    unfold ledger_after. rewrite Hcl.
    destruct Hact as [Hi|Hu].
    - rewrite Hi. simpl. left. split; [reflexivity|].
      destruct (update_installed_then_get_installed (ledger st1) (id (package a))
                  (name (package a)) (version (package a)) "installed" code
                  (utcnow (world st1)))
        as [[r (Hr & _ & Hv & Hs & _)] _].
      exists r. auto.
    - rewrite Hu. simpl. right. split; [reflexivity|]. right.
      destruct (update_installed_then_get_installed (ledger st1) (id (package a))
                  (name (package a)) (version (package a)) "uninstalled" code
                  (utcnow (world st1)))
        as [[r (Hr & _ & Hv & Hs & _)] _].
      exists r. split; [exact Hr|]. rewrite Hs. discriminate. }
  rewrite process_assignment_gate, Hmatch, report_run. reflexivity.
Qed.

(** ** The whole plan *)

Lemma ledger_after_keeps_single (a : PlanAssignment) (code : Z) (st : State W) :
  single_rows (ledger st) -> single_rows (ledger_after a code st).
Proof.
  intros Hone. unfold ledger_after.
  destruct (String.eqb (action a) "install"
            && String.eqb (classify (package a) code) "Succeeded");
    [now apply update_installed_keeps_single|].
  destruct (String.eqb (action a) "uninstall"
            && String.eqb (classify (package a) code) "Succeeded");
    [now apply update_installed_keeps_single | exact Hone].
Qed.

Lemma process_assignment_log cfg (a : PlanAssignment) (st : State W) :
  exists st' es event,
    process_assignment cfg a st = (Ok tt, st')
    /\ phase event = "completed"
    /\ log st' = log st ++ es ++ posted cfg (job_id a) event
    /\ (single_rows (ledger st) -> single_rows (ledger st')).
Proof.
  destruct (process_assignment_shape cfg a st) as [st' [Hrun Hshape]].
  destruct (short_circuits (ledger st) a).
  - exists st', [], (completed_event "Succeeded" 0 (gate_message a) "").
    split; [exact Hrun|]. split; [reflexivity|]. subst st'.
    split; [reflexivity | trivial].
  - destruct Hshape as (code & out & err & es & st1 & _ & _ & Hlog & Hled & ->).
    eexists. exists (posted cfg (job_id a) start_event ++ es),
      (completed_event (classify (package a) code) code out err).
    split; [exact Hrun|]. split; [reflexivity|]. simpl.
    split; [now rewrite Hlog, <- !app_assoc|].
    intros Hone. apply ledger_after_keeps_single. now rewrite Hled.
Qed.


(** X27: Processing a plan keeps the Ledger well formed: if it holds at most
    one row per package before, it does so after, however many entries
    of the plan concern the same package. *)
Theorem process_plan_keeps_single_rows (cfg : Config) (plan : list PlanAssignment) :
  forall st : State W,
  single_rows (ledger st) ->
  single_rows (ledger (snd (process_plan cfg plan st))).
Proof.
  induction plan as [|a rest IH]; intros st Hone; simpl; [exact Hone|].
  destruct (process_assignment_log cfg a st)
    as (st1 & es & event & Hrun & _ & _ & Hsingle).
  rewrite (bind_ok _ _ _ _ _ Hrun). apply IH. now apply Hsingle.
Qed.

End Pipeline.

(** ** Concrete runs *)

Lemma precheck_failure_aborts_witness :
  3 <> 0
  /\ perform_action {| job_id := Some 9; action := "install"; package := pkg_pre |}
       "install" (state0 (world_pre 3) empty_ledger)
     = (Ok (3, "disk full", ""),
        {| world := world_pre 3; ledger := empty_ledger;
           log := [Subprocess "pre-check"] |}).
Proof.
  split; [discriminate|].
  apply (precheck_failure_aborts
           {| job_id := Some 9; action := "install"; package := pkg_pre |}
           "install" (state0 (world_pre 3) empty_ledger)
           (state0 (world_pre 3) empty_ledger) (state0 (world_pre 3) empty_ledger)
           3 "disk full" "" (world_pre 3));
    try reflexivity. discriminate.
Defined.

Lemma download_failure_aborts_witness :
  path_exists (artifact_path (pkg0 [0])) world_offline = false
  /\ perform_action (entry0 (Some 5) "install" [0]) "install"
       (state0 world_offline empty_ledger)
     = (Ok (1, "", "Download failed: HTTP Error 404: Not Found"),
        {| world := world_offline; ledger := empty_ledger;
           log := [Download "http://repo/tool" "artifact_cache/pkg_7_1.0"] |}).
Proof.
  split; [reflexivity|].
  apply (download_failure_aborts (entry0 (Some 5) "install" [0]) "install"
           (state0 world_offline empty_ledger) (state0 world_offline empty_ledger)
           "HTTP Error 404: Not Found" world_offline); reflexivity.
Defined.

Lemma cached_artifact_accepted_witness :
  lower "ab12" = lower (sha256 (pkg0 [0]))
  /\ fetch_artifact (pkg0 [0]) (state0 (world0 "ab12" 0) empty_ledger)
     = (Ok None, state0 (world0 "ab12" 0) empty_ledger).
Proof.
  split; [reflexivity|].
  apply (cached_artifact_accepted (pkg0 [0]) (state0 (world0 "ab12" 0) empty_ledger));
    try reflexivity.
  right. exists "ab12". split; reflexivity.
Defined.

Lemma redelivery_short_circuits_witness :
  classify pkg_pre 0 = "Succeeded"
  /\ process_assignment cfg0
       {| job_id := Some 9; action := "install"; package := pkg_pre |}
       (snd (process_assignment cfg0
               {| job_id := Some 9; action := "install"; package := pkg_pre |}
               (state0 (world_pre 0) empty_ledger)))
     = (Ok tt,
        {| world := world_pre 0;
           ledger :=
             {| installed_packages :=
                  [{| r_id := 1; r_package_id := 8; r_name := "svc";
                      r_version := "2.0"; r_status := "installed";
                      r_last_action := "2024-06-01T12:00:00"; r_last_rc := 0 |}];
                seq_installed := 1 |};
           log := [Post 9 start_event; Subprocess "pre-check";
                   Subprocess "install-svc";
                   Post 9 (completed_event "Succeeded" 0 "service installed" "");
                   Post 9 (completed_event "Succeeded" 0 "already installed" "")] |}).
Proof.
  split; [reflexivity|].
  exact (redelivery_short_circuits cfg0
           {| job_id := Some 9; action := "install"; package := pkg_pre |}
           (state0 (world_pre 0) empty_ledger)
           {| world := world_pre 0; ledger := empty_ledger;
              log := [Post 9 start_event; Subprocess "pre-check";
                      Subprocess "install-svc"] |}
           0 "service installed" "" eq_refl (or_introl eq_refl) eq_refl eq_refl).
Defined.


Lemma process_plan_keeps_single_rows_witness :
  single_rows empty_ledger
  /\ single_rows
       (ledger (snd (process_plan cfg0
                       [{| job_id := Some 9; action := "install"; package := pkg_pre |};
                        {| job_id := None; action := "uninstall"; package := pkg_pre |}]
                       (state0 (world_pre 0) empty_ledger)))).
Proof.
  assert (H0 : single_rows empty_ledger) by (intros q; apply Nat.le_0_l).
  split; [exact H0|].
  apply (process_plan_keeps_single_rows cfg0
           [{| job_id := Some 9; action := "install"; package := pkg_pre |};
            {| job_id := None; action := "uninstall"; package := pkg_pre |}]
           (state0 (world_pre 0) empty_ledger) H0).
Defined.

End AgentMore.
